(** * ihatemoney/forms.py: the form layer of the shared-expense tracker

    A shallow embedding of [ihatemoney/forms.py] and the properties of its
    field normalisers and validators.

    Layout:
    - [Py]: the Python values, strings and exceptions the module computes with;
    - [re]: the one regular expression of the module, with the matching rules
      of Python's [re.match];
    - [wtforms]: the behaviour of the WTForms field classes the module extends;
    - one module per form class of [forms.py], in the order of the source;
    - the theorems. *)

From Stdlib Require Import ZArith NArith QArith List Bool Lia.
From Stdlib Require Import Strings.Ascii Strings.String Numbers.DecimalString.
From Stdlib Require Import Floats.
From stdpp Require Import base option list gmap.

Set Warnings "-register-all".
Local Open Scope N_scope.

(* ===================================================================== *)
(** * Python values *)
(* ===================================================================== *)

Module Py.

(** A Python [str] is a sequence of Unicode code points. *)
Definition char : Type := N.
Definition str : Type := list char.

(** [u "text"] is the [str] whose code points are the ASCII characters of
    the literal. *)
Definition u (s : String.string) : str :=
  List.map N_of_ascii (list_ascii_of_string s).

Definition ch (a : ascii) : char := N_of_ascii a.

Definition LF : char := 10.
Definition TAB : char := 9.

(** [str.isspace] on one code point: the code points Python treats as
    whitespace (those [str.strip()] removes). *)
Definition isspace (c : char) : bool :=
  ((9 <=? c) && (c <=? 13)) || ((28 <=? c) && (c <=? 32))
  || (c =? 133) || (c =? 160) || (c =? 5760)
  || ((8192 <=? c) && (c <=? 8202))
  || (c =? 8232) || (c =? 8233) || (c =? 8239) || (c =? 8287) || (c =? 12288).

Fixpoint lstrip (s : str) : str :=
  match s with
  | c :: s' => if isspace c then lstrip s' else s
  | [] => []
  end.

Definition rstrip (s : str) : str := rev (lstrip (rev s)).

(** [s.strip()] *)
Definition strip (s : str) : str := rstrip (lstrip s).

(** [bytes.strip()] removes the ASCII whitespace bytes only. *)
Definition isspace_byte (b : N) : bool :=
  ((9 <=? b) && (b <=? 13)) || (b =? 32).

Fixpoint lstrip_bytes (s : list N) : list N :=
  match s with
  | c :: s' => if isspace_byte c then lstrip_bytes s' else s
  | [] => []
  end.

Definition strip_bytes (s : list N) : list N :=
  rev (lstrip_bytes (rev (lstrip_bytes s))).

(** [s.split(sep)] for a one-character separator: the pieces between the
    occurrences of [sep]; never the empty list. *)
Fixpoint split (sep : char) (s : str) : list str :=
  match s with
  | [] => [[]]
  | c :: s' =>
      if c =? sep then [] :: split sep s'
      else match split sep s' with
           | p :: ps => (c :: p) :: ps
           | [] => [[c]]
           end
  end.

(** [s.replace(old, new)] for one-character [old] and [new]. *)
Definition replace (old new : char) (s : str) : str :=
  List.map (fun c => if c =? old then new else c) s.

Fixpoint startswith (s p : str) : bool :=
  match p, s with
  | [], _ => true
  | a :: p', b :: s' => (a =? b) && startswith s' p'
  | _ :: _, [] => false
  end.

(** [needle in hay] on strings: [needle] occurs as a substring. *)
Fixpoint contains (needle hay : str) : bool :=
  startswith hay needle
  || match hay with
     | [] => false
     | _ :: hay' => contains needle hay'
     end.

Definition str_eqb (a b : str) : bool := bool_decide (a = b).

(** The values a form field can hold. *)
Inductive value : Type :=
| VNone
| VBool (b : bool)
| VInt (z : Z)
| VFloat (f : float)
| VStr (s : str)
| VBytes (b : list N)
| VList (l : list value).

(** The exact numeric value of a number: Python compares [bool], [int] and
    [float] by value, without rounding. *)
Inductive numeric : Type :=
| Finite (q : Q)
| Infinite (negative : bool)
| NaN.

Definition float_numeric (f : float) : numeric :=
  match Prim2SF f with
  | S754_zero _ => Finite 0
  | S754_infinity s => Infinite s
  | S754_nan => NaN
  | S754_finite s m e =>
      let n := if s then Z.neg m else Z.pos m in
      Finite (inject_Z n * Qpower 2 e)
  end.

Definition as_numeric (v : value) : option numeric :=
  match v with
  | VBool b => Some (Finite (inject_Z (Z.b2z b)))
  | VInt z => Some (Finite (inject_Z z))
  | VFloat f => Some (float_numeric f)
  | _ => None
  end.

Definition numeric_eqb (a b : numeric) : bool :=
  match a, b with
  | Finite p, Finite q => Qeq_bool p q
  | Infinite s, Infinite t => Bool.eqb s t
  | _, _ => false
  end.

(** [a == b]: numbers by value, strings and bytes by content, lists
    element by element, and values of unrelated types are different. *)
Fixpoint py_eq (a b : value) : bool :=
  match as_numeric a, as_numeric b with
  | Some x, Some y => numeric_eqb x y
  | _, _ =>
      match a, b with
      | VNone, VNone => true
      | VStr s, VStr t => str_eqb s t
      | VBytes s, VBytes t => bool_decide (s = t)
      | VList l, VList m =>
          (fix all2 (l m : list value) : bool :=
             match l, m with
             | [], [] => true
             | x :: l', y :: m' => py_eq x y && all2 l' m'
             | _, _ => false
             end) l m
      | _, _ => false
      end
  end.

(** [bool(v)]: the truth value of [v]. *)
Definition truthy (v : value) : bool :=
  match v with
  | VNone => false
  | VBool b => b
  | VInt z => negb (z =? 0)%Z
  | VFloat f => negb (numeric_eqb (float_numeric f) (Finite 0))
  | VStr s => negb (bool_decide (s = []))
  | VBytes b => negb (bool_decide (b = []))
  | VList l => match l with [] => false | _ => true end
  end.

(** The number an arithmetic expression evaluates to. *)
Inductive number : Type :=
| Int (z : Z)
| Float (f : float).

Definition number_value (n : number) : value :=
  match n with
  | Int z => VInt z
  | Float f => VFloat f
  end.

(** [str(z)] for an [int]: its decimal digits, with a leading [-] when
    negative. *)
Definition str_int (z : Z) : str := u (NilZero.string_of_int (Z.to_int z)).

(** The user-facing messages of the module (the arguments of [_( ... )]),
    with their parameters. *)
Inductive message : Type :=
| NotAValidAmount          (* "Not a valid amount or expression. Only numbers
                              and + - * / operators are accepted." *)
| ProjectAlreadyExists (project : str)
                           (* 'A project with this identifier ("%(project)s")
                              already exists. Please choose a new identifier' *)
| ProjectDoesNotExist      (* "This project does not exists" *)
| BillsCantBeNull          (* "Bills can't be null" *)
| UserNameIncorrect        (* "User name incorrect" *)
| MemberAlreadyExists      (* "This project already have this member" *)
| EmailNotValid (email : str)
                           (* "The email %(email)s is not valid" *)
| NotAValidDecimal         (* WTForms: "Not a valid decimal value" *)
| FieldRequired            (* WTForms: "This field is required." *)
| OtherMessage (text : str).

(** The exceptions that travel through the module. *)
Inductive exception : Type :=
| ValueError (m : message)
| ValidationError (m : message)
| StopValidation (m : message)
| AttributeError
| TypeError
| BaseException_other.       (* KeyboardInterrupt, SystemExit, ... *)

(** [isinstance(e, Exception)]: what [except Exception] catches. *)
Definition is_Exception (e : exception) : bool :=
  match e with
  | BaseException_other => false
  | _ => true
  end.

(** A call either returns or raises. *)
Inductive result (A : Type) : Type :=
| Return (a : A)
| Raise (e : exception).
Arguments Return {A} a.
Arguments Raise {A} e.

Definition bind {A B} (r : result A) (k : A -> result B) : result B :=
  match r with
  | Return a => k a
  | Raise e => Raise e
  end.

Definition returns {A} (r : result A) : bool :=
  match r with Return _ => true | Raise _ => false end.

(** [isinstance(e, ValueError)]: WTForms' [ValidationError] derives from
    [ValueError]. *)
Definition is_ValueError (e : exception) : bool :=
  match e with
  | ValueError _ | ValidationError _ => true
  | _ => false
  end.

(** [e.args[0]] of an exception raised with a message. *)
Definition exception_message (e : exception) : option message :=
  match e with
  | ValueError m | ValidationError m | StopValidation m => Some m
  | _ => None
  end.

(** [v.split(",")]: [str] has the method and takes the separator; [bytes]
    has it and refuses a [str] separator; the other values have none. *)
Definition method_split_comma (v : value) : result (list str) :=
  match v with
  | VStr s => Return (split (ch ",") s)
  | VBytes _ => Raise TypeError
  | _ => Raise AttributeError
  end.

(** [v.strip()]: the attribute lookup and the call. [str] and [bytes] have
    the method; on the other values the lookup raises [AttributeError]. *)
Definition method_strip (v : value) : result value :=
  match v with
  | VStr s => Return (VStr (strip s))
  | VBytes b => Return (VBytes (strip_bytes b))
  | _ => Raise AttributeError
  end.

End Py.

Import Py.

#[global] Instance result_ret : MRet result := @Return.
#[global] Instance result_bind : MBind result := fun A B k r => Py.bind r k.


(* ===================================================================== *)
(** * The regular expression of the amount field *)
(* ===================================================================== *)

Module re.

(** The character class [[ 0-9\.\+\-\*/\(\)]]: the space, the ASCII digits
    and the seven characters [. + - * / ( )]. *)
Definition amount_class (c : char) : bool :=
  (c =? ch " ") || ((ch "0" <=? c) && (c <=? ch "9"))
  || (c =? ch ".") || (c =? ch "+") || (c =? ch "-") || (c =? ch "*")
  || (c =? ch "/") || (c =? ch "(") || (c =? ch ")").

(** [[cls]{0,n}] from the start of [s]: what is left of [s] after each
    number of repetitions the input allows, the longest first (the
    quantifier is greedy and gives characters back on failure). *)
Fixpoint repeat_upto (cls : char -> bool) (n : nat) (s : str) : list str :=
  match n, s with
  | S n', c :: s' =>
      if cls c then repeat_upto cls n' s' ++ [s] else [s]
  | _, _ => [s]
  end.

(** [$] (no MULTILINE flag): holds at the end of the string, and also just
    before a line feed that is the last character of the string. *)
Definition dollar (rest : str) : bool :=
  match rest with
  | [] => true
  | [c] => c =? LF
  | _ => false
  end.

(** [match(r"^[ 0-9\.\+\-\*/\(\)]{0,200}$", value)] is not [None].
    [match] tries the pattern at position 0 only, where [^] holds. *)
Definition match_amount (value : str) : bool :=
  existsb dollar (repeat_upto amount_class 200 value).

(** [value] without the line feed that ends it, if one does. *)
Definition chomp (value : str) : str :=
  match rev value with
  | c :: r => if c =? LF then rev r else value
  | [] => []
  end.

End re.

(* ===================================================================== *)
(** * WTForms: the field classes the module builds on *)
(* ===================================================================== *)

Module wtforms.

(** A field: its current [data] and its [default]. *)
Record Field : Type := mkField { data : value; default : value }.

Definition set_data (self : Field) (v : value) : Field :=
  {| data := v; default := default self |}.

(** [StringField.process_formdata]: the first submitted value becomes the
    data; without one, [None] becomes the empty string. *)
Definition StringField_process_formdata (self : Field) (valuelist : list str)
  : Field :=
  match valuelist with
  | v :: _ => set_data self (VStr v)
  | [] => match data self with
          | VNone => set_data self (VStr [])
          | _ => self
          end
  end.

(** A [DecimalField]: its data is a [Decimal] or [None]. *)
Record DecimalField (Decimal : Type) : Type :=
  mkDecimalField { decimal_data : option Decimal }.
Arguments mkDecimalField {Decimal} _.
Arguments decimal_data {Decimal} _.

(** [DecimalField.process_formdata] (with [use_locale] off): the data is
    [decimal.Decimal(valuelist[0])]; when that raises, the data is [None]
    and [ValueError] is raised. [Decimal_of_str] is the constructor
    [decimal.Decimal], [None] standing for [InvalidOperation]. *)
Definition DecimalField_process_formdata {Decimal : Type}
    (Decimal_of_str : str -> option Decimal)
    (self : DecimalField Decimal) (valuelist : list str)
  : result unit * DecimalField Decimal :=
  match valuelist with
  | v :: _ =>
      match Decimal_of_str v with
      | Some d => (Return tt, mkDecimalField (Some d))
      | None => (Raise (ValueError NotAValidDecimal), mkDecimalField None)
      end
  | [] => (Return tt, self)
  end.

(** A validator is called with the field and returns or raises. *)
Definition validator : Type := Field -> result unit.

(** [DataRequired()]: stops the validation when the data is false, or is a
    string of whitespace only. *)
Definition DataRequired : validator := fun field =>
  if negb (truthy (data field))
     || match data field with
        | VStr s => negb (truthy (VStr (strip s)))
        | _ => false
        end
  then Raise (StopValidation FieldRequired)
  else Return tt.

(** [Field._run_validation_chain]: [StopValidation] records its message and
    ends the chain; a [ValueError] records its message and the chain goes
    on; anything else is not caught. The result is the list of errors. *)
Fixpoint run_validation_chain (validators : list validator) (field : Field)
    (errors : list message) : result (list message) :=
  match validators with
  | [] => Return errors
  | v :: vs =>
      match v field with
      | Return _ => run_validation_chain vs field errors
      | Raise (StopValidation m) => Return (errors ++ [m])
      | Raise e =>
          if is_ValueError e
          then run_validation_chain vs field
                 (errors ++ match exception_message e with
                            | Some m => [m]
                            | None => []
                            end)
          else Raise e
      end
  end.

(** [Field.validate(form, extra_validators)]: the errors start as the
    processing errors, the field's validators run before the inline
    [validate_<name>] one, and the field is valid when no error was
    recorded. The result holds the verdict and the errors. *)
Definition Field_validate (process_errors : list message)
    (validators extra_validators : list validator) (field : Field)
  : result (bool * list message) :=
  errors ← run_validation_chain (validators ++ extra_validators) field
             process_errors;
  mret (bool_decide (errors = []), errors).

(** The filters of a field, applied in order to its data at the end of
    [Field.process]. *)
Fixpoint apply_filters (filters : list (value -> result value)) (v : value)
  : result value :=
  match filters with
  | [] => Return v
  | f :: fs => v' ← f v; apply_filters fs v'
  end.

End wtforms.

(* ===================================================================== *)
(** * ihatemoney.models: the entities the forms read and write *)
(* ===================================================================== *)

(** Modelled from the spec: [ihatemoney/models.py] is not part of the
    sources at hand. The members of [LoggingMode] are the three that
    [forms.py] names; the "Logging preference" of the spec is one of
    disabled / enabled / enabled-with-IP. [LoggingMode.default()] is a
    parameter of the definitions that call it. *)
Inductive LoggingMode : Type := DISABLED | ENABLED | RECORD_IP.

#[global] Instance LoggingMode_eq_dec : EqDecision LoggingMode.
Proof. solve_decision. Defined.

(** Modelled from the spec: the attributes of a Project that [forms.py]
    assigns (spec, Data model: id, name, password hash, contact email,
    logging preference, default currency). *)
Record Project : Type := mkProject {
  project_id : str;
  project_name : str;
  project_password : str;
  project_contact_email : str;
  project_logging_preference : LoggingMode;
  project_default_currency : str
}.

(** [project.<attribute> = v] *)
Definition set_project_name (p : Project) (v : str) : Project :=
  {| project_id := project_id p; project_name := v;
     project_password := project_password p;
     project_contact_email := project_contact_email p;
     project_logging_preference := project_logging_preference p;
     project_default_currency := project_default_currency p |}.

Definition set_project_password (p : Project) (v : str) : Project :=
  {| project_id := project_id p; project_name := project_name p;
     project_password := v;
     project_contact_email := project_contact_email p;
     project_logging_preference := project_logging_preference p;
     project_default_currency := project_default_currency p |}.

Definition set_project_contact_email (p : Project) (v : str) : Project :=
  {| project_id := project_id p; project_name := project_name p;
     project_password := project_password p;
     project_contact_email := v;
     project_logging_preference := project_logging_preference p;
     project_default_currency := project_default_currency p |}.

Definition set_project_logging_preference (p : Project) (v : LoggingMode)
  : Project :=
  {| project_id := project_id p; project_name := project_name p;
     project_password := project_password p;
     project_contact_email := project_contact_email p;
     project_logging_preference := v;
     project_default_currency := project_default_currency p |}.

(** Modelled from the spec: the attributes of a Person that
    [MemberForm.validate_name] filters on (name, project, activated flag). *)
Record Person : Type := mkPerson {
  person_name : str;
  person_project : str;      (* the id of the project the member is in *)
  person_activated : bool
}.

(* ===================================================================== *)
(** * forms.py *)
(* ===================================================================== *)

(** [strip_filter(string)] *)
Definition strip_filter (string : value) : result value :=
  match method_strip string with
  | Return stripped => Return stripped
  | Raise e => if is_Exception e then Return string else Raise e
  end.

Module CommaDecimalField.
Section field.
Context {Decimal : Type}.
(** [decimal.Decimal(text)]; [None] when it raises [InvalidOperation]. *)
Variable Decimal_of_str : str -> option Decimal.

(** [process_formdata(self, value)]: returns the outcome of the call,
    the field and the list [value], whose first element the method
    overwrites. *)
Definition process_formdata (self : wtforms.DecimalField Decimal)
    (value : list str)
  : result unit * wtforms.DecimalField Decimal * list str :=
  let value :=
    match value with
    | v0 :: rest => replace (ch ",") (ch ".") v0 :: rest
    | [] => []
    end in
  (wtforms.DecimalField_process_formdata Decimal_of_str self value, value).
End field.
End CommaDecimalField.

Module CalculatorStringField.
Section field.
(** [ihatemoney.utils.eval_arithmetic_expression]: returns the number
    the expression evaluates to, or raises. *)
Variable eval_arithmetic_expression : str -> result number.
(** [str(f)] for a [float]. *)
Variable float_repr : float -> str.

(** [str(n)] for the result of the evaluation. *)
Definition str_number (n : number) : str :=
  match n with
  | Int z => str_int z
  | Float f => float_repr f
  end.

(** The guard of [process_formdata]:
    [not match(r"^[ 0-9\.\+\-\*/\(\)]{0,200}$", value) or "**" in value] *)
Definition refused (value : str) : bool :=
  negb (re.match_amount value) || contains (u "**") value.

(** [process_formdata(self, valuelist)]: returns the outcome of the call,
    the field and the list [valuelist], whose first element the method
    overwrites. *)
Definition process_formdata (self : wtforms.Field) (valuelist : list str)
  : result unit * wtforms.Field * list str :=
  match valuelist with
  | v0 :: rest =>
      let value := replace (ch ",") (ch ".") v0 in
      if refused value then
        (Raise (ValueError NotAValidAmount), self, valuelist)
      else
        match eval_arithmetic_expression value with
        | Raise e => (Raise e, self, valuelist)
        | Return n =>
            let valuelist := str_number n :: rest in
            (Return tt,
             wtforms.StringField_process_formdata self valuelist,
             valuelist)
        end
  | [] => (Return tt, wtforms.StringField_process_formdata self [], [])
  end.
End field.
End CalculatorStringField.

Module EditProjectForm.

(** The data of the fields of the form ([id] is the field [ProjectForm]
    adds). *)
Record t : Type := mk {
  name : str;
  id : str;
  password : str;
  contact_email : str;
  project_history : bool;
  ip_recording : bool;
  default_currency : str
}.

(** [self.<field>.data = v] *)
Definition set_id (self : t) (v : str) : t :=
  {| name := name self; id := v; password := password self;
     contact_email := contact_email self;
     project_history := project_history self;
     ip_recording := ip_recording self;
     default_currency := default_currency self |}.

Definition set_project_history (self : t) (v : bool) : t :=
  {| name := name self; id := id self; password := password self;
     contact_email := contact_email self;
     project_history := v;
     ip_recording := ip_recording self;
     default_currency := default_currency self |}.

Definition set_ip_recording (self : t) (v : bool) : t :=
  {| name := name self; id := id self; password := password self;
     contact_email := contact_email self;
     project_history := project_history self;
     ip_recording := v;
     default_currency := default_currency self |}.

(** The property [logging_preference]. *)
Definition logging_preference (self : t) : LoggingMode :=
  if negb (project_history self) then DISABLED
  else if ip_recording self then RECORD_IP
  else ENABLED.

Section werkzeug.
(** The randomness [generate_password_hash] draws its salt from. *)
Context {Salt : Type}.
Variable generate_password_hash : Salt -> str -> str.
Variable check_password_hash : str -> str -> bool.
(** [Project.switch_currency], of [ihatemoney/models.py]. *)
Variable switch_currency : Project -> str -> Project.

(** [save(self)] *)
Definition save (salt : Salt) (self : t) : Project :=
  {| project_name := name self;
     project_id := id self;
     project_password := generate_password_hash salt (password self);
     project_contact_email := contact_email self;
     project_logging_preference := logging_preference self;
     project_default_currency := default_currency self |}.

(** [update(self, project)] *)
Definition update (salt : Salt) (self : t) (project : Project) : Project :=
  let project := set_project_name project (name self) in
  let project :=
    if negb (check_password_hash (project_password project) (password self))
    then set_project_password project
           (generate_password_hash salt (password self))
    else project in
  let project := set_project_contact_email project (contact_email self) in
  let project :=
    set_project_logging_preference project (logging_preference self) in
  switch_currency project (default_currency self).
End werkzeug.
End EditProjectForm.

Module ProjectForm.
Section form.
Context {Salt : Type}.
Variable generate_password_hash : Salt -> str -> str.
(** [LoggingMode.default()] *)
Variable LoggingMode_default : LoggingMode.
(** [ihatemoney.utils.slugify] *)
Variable slugify : str -> str.

(** [save(self)]: both toggles are overwritten from
    [LoggingMode.default()] before the project is built. *)
Definition save (salt : Salt) (self : EditProjectForm.t) : Project :=
  let self :=
    EditProjectForm.set_project_history self
      (negb (bool_decide (LoggingMode_default = DISABLED))) in
  let self :=
    EditProjectForm.set_ip_recording self
      (bool_decide (LoggingMode_default = RECORD_IP)) in
  EditProjectForm.save generate_password_hash salt self.

(** [validate_id(form, field)], [field] being [form.id]. [projects] is
    the table [Project.query.get] reads, by primary key. Returns the
    outcome and the form, whose [id] the method overwrites. *)
Definition validate_id (projects : gmap str Project)
    (form : EditProjectForm.t)
  : result unit * EditProjectForm.t :=
  let form :=
    EditProjectForm.set_id form (slugify (EditProjectForm.id form)) in
  if bool_decide (EditProjectForm.id form = u "dashboard")
     || bool_decide (is_Some (projects !! EditProjectForm.id form))
  then (Raise (ValidationError
                 (ProjectAlreadyExists (EditProjectForm.id form))), form)
  else (Return tt, form).
End form.
End ProjectForm.

Module BillForm.

(** [validate_amount(self, field)] *)
Definition validate_amount : wtforms.validator := fun field =>
  if py_eq (wtforms.data field) (VInt 0)
  then Raise (ValidationError BillsCantBeNull)
  else Return tt.

Section form.
Variable eval_arithmetic_expression : str -> result number.
Variable float_repr : float -> str.

(** The field [amount] of a submitted form, through [Field.process] and
    [Field.validate]: [raw] are the values submitted under the name
    [amount]. The field starts from its default ([None]), a [ValueError]
    of [process_formdata] becomes a processing error, and the validators
    are [DataRequired()] and then the inline [validate_amount]. *)
Definition amount_submitted (raw : list str)
  : result (bool * list message * wtforms.Field) :=
  let field := wtforms.mkField VNone VNone in
  match CalculatorStringField.process_formdata eval_arithmetic_expression
          float_repr field raw with
  | (outcome, field, _) =>
      process_errors ←
        match outcome with
        | Return _ => Return []
        | Raise e =>
            if is_ValueError e
            then Return match exception_message e with
                        | Some m => [m]
                        | None => []
                        end
            else Raise e
        end;
      verdict ← wtforms.Field_validate process_errors
                  [wtforms.DataRequired] [validate_amount] field;
      mret (verdict, field)
  end.
End form.
End BillForm.

Module MemberForm.

(** The form: the field [name], and the attributes [project] (by its id)
    and [edit] that [__init__] stores. *)
Record t : Type := mk {
  name : wtforms.Field;
  project : str;
  edit : bool
}.

(** [name = StringField(_("Name"), validators=[DataRequired()],
    filters=[strip_filter])]: no default is given, so it is [None]. *)
Definition name_field (data : value) : wtforms.Field :=
  wtforms.mkField data VNone.

Definition name_filters : list (value -> result value) := [strip_filter].

(** [Person.query.filter(Person.name == data, Person.project == project,
    Person.activated == True).all()] over the table [persons]. *)
Definition active_namesakes (persons : list Person) (data : value)
    (project : str) : list Person :=
  List.filter
    (fun p => match data with
              | VStr s => bool_decide (person_name p = s)
              | _ => false
              end
              && bool_decide (person_project p = project)
              && Bool.eqb (person_activated p) true)
    persons.

(** [validate_name(form, field)], [field] being [form.name]. *)
Definition validate_name (persons : list Person) (form : t)
    (field : wtforms.Field) : result unit :=
  if py_eq (wtforms.data field) (wtforms.default (name form))
  then Raise (ValidationError UserNameIncorrect)
  else if negb (edit form)
          && match active_namesakes persons (wtforms.data field)
                     (project form) with
             | [] => false
             | _ :: _ => true
             end
  then Raise (ValidationError MemberAlreadyExists)
  else Return tt.

End MemberForm.

Module InviteForm.
Section form.
(** [email_validator.validate_email(email)]: [true] when it returns,
    [false] when it raises [EmailNotValidError]. *)
Variable validate_email : str -> bool.

(** The loop of [validate_emails] over the addresses. *)
Fixpoint validate_each (emails : list str) : result unit :=
  match emails with
  | [] => Return tt
  | email :: rest =>
      if validate_email email then validate_each rest
      else Raise (ValidationError (EmailNotValid email))
  end.

(** [validate_emails(form, field)], [field] being [form.emails]. *)
Definition validate_emails : wtforms.validator := fun field =>
  pieces ← method_split_comma (wtforms.data field);
  validate_each (List.map strip pieces).

(** The field [emails] of a submitted form through [Field.validate]: the
    field has no validator of its own, so the inline [validate_emails]
    is the whole chain. [emails] is the submitted text. *)
Definition emails_submitted (emails : str) : result (bool * list message) :=
  wtforms.Field_validate [] [] [validate_emails]
    (wtforms.StringField_process_formdata (wtforms.mkField VNone VNone)
       [emails]).
End form.
End InviteForm.

(* ===================================================================== *)
(** * forms.py: the other forms and functions *)
(* ===================================================================== *)

Module validators.

(** [wtforms.validators.EqualTo(fieldname, message)], called on a form
    that has the other field: raises when [field.data != other.data]. *)
Definition EqualTo (other : wtforms.Field) (m : message)
  : wtforms.validator := fun field =>
  if negb (py_eq (wtforms.data field) (wtforms.data other))
  then Raise (ValidationError m)
  else Return tt.

(** The last step of [Field.process]: each filter replaces the data with
    its result; a [ValueError] of a filter becomes a processing error and
    ends the loop. Returns the processing errors and the field. *)
Fixpoint run_filters (filters : list (value -> result value))
    (field : wtforms.Field) : result (list message) * wtforms.Field :=
  match filters with
  | [] => (Return [], field)
  | f :: fs =>
      match f (wtforms.data field) with
      | Return v => run_filters fs (wtforms.set_data field v)
      | Raise e =>
          if is_ValueError e
          then (Return match exception_message e with
                       | Some m => [m]
                       | None => []
                       end, field)
          else (Raise e, field)
      end
  end.

End validators.

Module PasswordReminder.

(** [validate_id(form, field)]: [id] is [field.data], [projects] the
    table [Project.query.get] reads. *)
Definition validate_id (projects : gmap str Project) (id : str)
  : result unit :=
  if negb (bool_decide (is_Some (projects !! id)))
  then Raise (ValidationError ProjectDoesNotExist)
  else Return tt.

End PasswordReminder.

Module ResetPasswordForm.

(** [EqualTo("password_confirmation", message=_("Password mismatch"))] *)
Definition PasswordMismatch : message := OtherMessage (u "Password mismatch").

(** [password_validators], for a form whose field [password_confirmation]
    is [confirmation]. *)
Definition password_validators (confirmation : wtforms.Field)
  : list wtforms.validator :=
  [wtforms.DataRequired; validators.EqualTo confirmation PasswordMismatch].

(** [form.validate()] on a submitted form: both fields are [PasswordField]s,
    which process the submitted text as a [StringField] does; every field
    is validated and the form is valid when all are. Returns the verdict
    and the errors of [password] and of [password_confirmation]. *)
Definition validate (password password_confirmation : str)
  : result (bool * list message * list message) :=
  let blank := wtforms.mkField VNone VNone in
  let password := wtforms.StringField_process_formdata blank [password] in
  let confirmation :=
    wtforms.StringField_process_formdata blank [password_confirmation] in
  p ← wtforms.Field_validate [] (password_validators confirmation) []
        password;
  c ← wtforms.Field_validate [] [wtforms.DataRequired] [] confirmation;
  mret (fst p && fst c, snd p, snd c).

End ResetPasswordForm.

Module MemberName.

(** The field [name] of a submitted [MemberForm], through [Field.process]
    and [Field.validate]: [raw] is the submitted text, [project] and [edit]
    are the arguments of [MemberForm.__init__] and [persons] is the table of
    persons. The text is stored, the filters ([strip_filter]) are applied,
    then [DataRequired()] and the inline [validate_name] run. Returns the
    verdict, the errors and the field. *)
Definition submitted (persons : list Person) (project : str) (edit : bool)
    (raw : str) : result (bool * list message * wtforms.Field) :=
  let field :=
    wtforms.StringField_process_formdata (MemberForm.name_field VNone)
      [raw] in
  match validators.run_filters MemberForm.name_filters field with
  | (filtered, field) =>
      process_errors ← filtered;
      let form :=
        {| MemberForm.name := field; MemberForm.project := project;
           MemberForm.edit := edit |} in
      verdict ← wtforms.Field_validate process_errors
                  [wtforms.DataRequired]
                  [MemberForm.validate_name persons form] field;
      mret (verdict, field)
  end.

End MemberName.

(** Modelled from the spec: the attributes of a Bill that [forms.py]
    assigns and reads (spec, Data model: payer, amount, currency, date,
    external link, owers, converted amount; and the description [what]).
    [Date] is what the date column holds and [person] a Person object. *)
Module Bill.
Section bill.
Context {Date person : Type}.

Record t : Type := mk {
  payer_id : value;
  amount : value;
  what : value;
  external_link : value;
  date : Date;
  owers : list person;
  original_currency : str;
  converted_amount : value
}.

End bill.
Arguments t : clear implicits.
End Bill.

Module BillFields.

(** [payer]: its data and its choices. *)
Record PayerField : Type := mkPayer {
  payer_data : value;
  payer_choices : list (Z * str)
}.

(** [payed_for]: its data (the ids ticked), its choices and its default. *)
Record PayeesField : Type := mkPayees {
  payees_data : list Z;
  payees_choices : list (Z * str);
  payees_default : list Z
}.

(** [Label(field_id, text)] *)
Inductive label : Type := Label (field_id : str) (text : str).

(** [_("Project default: %(currency)s", currency=...)] *)
Inductive description : Type := ProjectDefault (currency : str).

(** [original_currency]: its data, choices, label and description. *)
Record CurrencyField : Type := mkCurrency {
  currency_data : str;
  currency_choices : list (str * str);
  currency_label : label;
  currency_description : option description
}.

Section form.
Context {Date person : Type}.

(** The fields of a [BillForm] that the methods below read and write. *)
Record t : Type := mk {
  date : Date;
  what : value;
  payer : PayerField;
  amount : value;
  original_currency : CurrencyField;
  external_link : value;
  payed_for : PayeesField
}.

(** [person.id] and [person.name] *)
Variable person_id : person -> Z.
Variable person_name : person -> str.
(** [Person.query.get(id, project)], of [ihatemoney/models.py]: returns
    the person or raises. *)
Variable Person_query_get : Z -> Project -> result person.
(** [project.active_members], of [ihatemoney/models.py]. *)
Variable active_members : Project -> list person.
(** [CurrencyConverter]: [exchange_currency(amount, from, to)],
    [get_currencies(with_no_currency=...)] and the constant [no_currency]. *)
Variable exchange_currency : value -> str -> str -> value.
Variable get_currencies : bool -> list str.
Variable no_currency : str.
(** [render_localized_currency(code, detailed=...)] *)
Variable render_localized_currency : str -> bool -> str.

(** [[Person.query.get(ower, project) for ower in ids]]: the lookups are
    made from the left and the first one that raises ends them. *)
Fixpoint get_owers (ids : list Z) (project : Project)
  : result (list person) :=
  match ids with
  | [] => Return []
  | ower :: ids' =>
      p ← Person_query_get ower project;
      ps ← get_owers ids' project;
      mret (p :: ps)
  end.

(** [save(self, bill, project)]: returns the outcome and the bill. The
    first five attributes are assigned before the payees are looked up. *)
Definition save (self : t) (bill : Bill.t Date person) (project : Project)
  : result unit * Bill.t Date person :=
  match get_owers (payees_data (payed_for self)) project with
  | Raise e =>
      (Raise e,
       {| Bill.payer_id := payer_data (payer self);
          Bill.amount := amount self;
          Bill.what := what self;
          Bill.external_link := external_link self;
          Bill.date := date self;
          Bill.owers := Bill.owers bill;
          Bill.original_currency := Bill.original_currency bill;
          Bill.converted_amount := Bill.converted_amount bill |})
  | Return found =>
      (Return tt,
       {| Bill.payer_id := payer_data (payer self);
          Bill.amount := amount self;
          Bill.what := what self;
          Bill.external_link := external_link self;
          Bill.date := date self;
          Bill.owers := found;
          Bill.original_currency := currency_data (original_currency self);
          Bill.converted_amount :=
            exchange_currency (amount self)
              (currency_data (original_currency self))
              (project_default_currency project) |})
  end.

(** The object [fake_form] is called on: it has the values themselves as
    attributes, not fields. *)
Record Fake : Type := mkFake {
  fake_payer : value;
  fake_amount : value;
  fake_what : value;
  fake_date : Date;
  fake_payed_for : list Z
}.

(** [fake_form(self, bill, project)] *)
Definition fake_form (self : Fake) (bill : Bill.t Date person)
    (project : Project) : result unit * Bill.t Date person :=
  match get_owers (fake_payed_for self) project with
  | Raise e =>
      (Raise e,
       {| Bill.payer_id := fake_payer self;
          Bill.amount := fake_amount self;
          Bill.what := fake_what self;
          Bill.external_link := VStr [];
          Bill.date := fake_date self;
          Bill.owers := Bill.owers bill;
          Bill.original_currency := Bill.original_currency bill;
          Bill.converted_amount := Bill.converted_amount bill |})
  | Return found =>
      (Return tt,
       {| Bill.payer_id := fake_payer self;
          Bill.amount := fake_amount self;
          Bill.what := fake_what self;
          Bill.external_link := VStr [];
          Bill.date := fake_date self;
          Bill.owers := found;
          Bill.original_currency := no_currency;
          Bill.converted_amount :=
            exchange_currency (fake_amount self) no_currency
              (project_default_currency project) |})
  end.

(** [fill(self, bill, project)] *)
Definition fill (self : t) (bill : Bill.t Date person) (project : Project)
  : t :=
  {| payer := {| payer_data := Bill.payer_id bill;
                 payer_choices := payer_choices (payer self) |};
     amount := Bill.amount bill;
     what := Bill.what bill;
     external_link := Bill.external_link bill;
     original_currency :=
       {| currency_data := Bill.original_currency bill;
          currency_choices := currency_choices (original_currency self);
          currency_label := Label (u "original_currency") (u "Currency");
          currency_description :=
            Some (ProjectDefault
                    (render_localized_currency
                       (project_default_currency project) false)) |};
     date := Bill.date bill;
     payed_for :=
       {| payees_data := List.map person_id (Bill.owers bill);
          payees_choices := payees_choices (payed_for self);
          payees_default := payees_default (payed_for self) |} |}.

(** [set_default(self)] *)
Definition set_default (self : t) : t :=
  {| date := date self; what := what self; payer := payer self;
     amount := amount self; original_currency := original_currency self;
     external_link := external_link self;
     payed_for :=
       {| payees_data := payees_default (payed_for self);
          payees_choices := payees_choices (payed_for self);
          payees_default := payees_default (payed_for self) |} |}.

(** [get_billform_for(project, set_default, ...)]: [form] is the
    [BillForm] built from the keyword arguments and [method] is
    [request.method]. *)
Definition get_billform_for (project : Project) (with_default : bool)
    (method : str) (form : t) : t :=
  let currency :=
    if bool_decide (currency_data (original_currency form) = u "None")
    then project_default_currency project
    else currency_data (original_currency form) in
  let show_no_currency := bool_decide (currency = no_currency) in
  let choices :=
    List.map (fun currency_name =>
                (currency_name,
                 render_localized_currency currency_name false))
      (get_currencies show_no_currency) in
  let members :=
    List.map (fun m => (person_id m, person_name m))
      (active_members project) in
  let form :=
    {| date := date form; what := what form;
       payer := {| payer_data := payer_data (payer form);
                   payer_choices := members |};
       amount := amount form;
       original_currency :=
         {| currency_data := currency;
            currency_choices := choices;
            currency_label := currency_label (original_currency form);
            currency_description :=
              currency_description (original_currency form) |};
       external_link := external_link form;
       payed_for :=
         {| payees_data := payees_data (payed_for form);
            payees_choices := members;
            payees_default :=
              List.map person_id (active_members project) |} |} in
  if with_default && bool_decide (method = u "GET")
  then set_default form
  else form.

End form.
Arguments t : clear implicits.
Arguments Fake : clear implicits.
End BillFields.

(* ===================================================================== *)
(** * The words of the specification *)
(* ===================================================================== *)

Module Spec.

(** "digits, whitespace, and the operators + - * / ( )", and periods. *)
Definition amount_char (c : char) : bool :=
  ((ch "0" <=? c) && (c <=? ch "9")) || isspace c || (c =? ch ".")
  || (c =? ch "+") || (c =? ch "-") || (c =? ch "*") || (c =? ch "/")
  || (c =? ch "(") || (c =? ch ")").

(** A string the amount contract accepts: only such characters, at most
    200 of them, and no "**". *)
Definition amount_accepted (value : str) : bool :=
  forallb amount_char value && (length value <=? 200)%nat
  && negb (contains (u "**") value).

(** "Logging preference is derived: disabled / enabled / enabled-with-IP,
    selected by the two toggles." *)
Definition selected_by_toggles (history ip : bool) : LoggingMode :=
  match history, ip with
  | false, _ => DISABLED
  | true, false => ENABLED
  | true, true => RECORD_IP
  end.

End Spec.

(* ===================================================================== *)
(** * Sample collaborators, for the examples *)
(* ===================================================================== *)

Module Sample.

(** An evaluator that knows the expressions of the examples. *)
Definition eval_arithmetic_expression (expr : str) : result number :=
  if bool_decide (expr = u "2-2") then Return (Int 0)
  else if bool_decide (expr = u "1+2") then Return (Int 3)
  else if bool_decide (expr = u "1.5") then Return (Float 1.5%float)
  else Raise (ValueError (OtherMessage (u "Error evaluating expression"))).

Definition float_repr (f : float) : str :=
  if PrimFloat.eqb f 1.5%float then u "1.5" else u "?".

(** An email check that asks for an at-sign. *)
Definition validate_email (email : str) : bool := contains (u "@") email.

(** A slugifier for lower-case identifiers: it keeps them. *)
Definition slugify (text : str) : str := text.

(** A password scheme that stores the salt before the code. *)
Definition generate_password_hash (salt : str) (password : str) : str :=
  salt ++ ch "$" :: password.

Fixpoint after_dollar (h : str) : str :=
  match h with
  | [] => []
  | c :: h' => if c =? ch "$" then h' else after_dollar h'
  end.

Definition check_password_hash (pwhash password : str) : bool :=
  bool_decide (after_dollar pwhash = password).

Definition switch_currency (p : Project) (currency : str) : Project :=
  {| project_id := project_id p; project_name := project_name p;
     project_password := project_password p;
     project_contact_email := project_contact_email p;
     project_logging_preference := project_logging_preference p;
     project_default_currency := currency |}.

Definition trip : Project :=
  {| project_id := u "trip"; project_name := u "Trip";
     project_password := u "s$secret";
     project_contact_email := u "a@x.com";
     project_logging_preference := ENABLED;
     project_default_currency := u "EUR" |}.

Definition form : EditProjectForm.t :=
  {| EditProjectForm.name := u "Trip"; EditProjectForm.id := u "trip";
     EditProjectForm.password := u "secret";
     EditProjectForm.contact_email := u "a@x.com";
     EditProjectForm.project_history := true;
     EditProjectForm.ip_recording := false;
     EditProjectForm.default_currency := u "EUR" |}.

Definition alice (activated : bool) : Person :=
  {| person_name := u "Alice"; person_project := u "trip";
     person_activated := activated |}.

End Sample.

Module SampleBill.

(** Persons as pairs of an id and a name; dates as day numbers. *)
Definition person : Type := Z * str.
Definition person_id (p : person) : Z := fst p.
Definition person_name (p : person) : str := snd p.

Definition alice : person := (1%Z, u "Alice").
Definition bob : person := (2%Z, u "Bob").

(** A table with Alice and Bob; looking up another id raises. *)
Definition Person_query_get (id : Z) (project : Project) : result person :=
  if (id =? 1)%Z then Return alice
  else if (id =? 2)%Z then Return bob
  else Raise (ValueError (OtherMessage (u "No row was found"))).

Definition active_members (project : Project) : list person := [alice; bob].

(** No conversion. *)
Definition exchange_currency (amount : value) (source target : str)
  : value := amount.

Definition no_currency : str := u "XXX".

Definition get_currencies (with_no_currency : bool) : list str :=
  if with_no_currency then [u "XXX"; u "EUR"; u "USD"]
  else [u "EUR"; u "USD"].

Definition render_localized_currency (code : str) (detailed : bool) : str :=
  code.

Definition form : BillFields.t Z :=
  {| BillFields.date := 738000%Z;
     BillFields.what := VStr (u "Dinner");
     BillFields.payer :=
       {| BillFields.payer_data := VInt 1; BillFields.payer_choices := [] |};
     BillFields.amount := VStr (u "30");
     BillFields.original_currency :=
       {| BillFields.currency_data := u "None";
          BillFields.currency_choices := [];
          BillFields.currency_label :=
            BillFields.Label (u "original_currency") (u "Currency");
          BillFields.currency_description := None |};
     BillFields.external_link := VStr [];
     BillFields.payed_for :=
       {| BillFields.payees_data := [2%Z];
          BillFields.payees_choices := [];
          BillFields.payees_default := [] |} |}.

Definition bill : Bill.t Z person :=
  {| Bill.payer_id := VInt 1; Bill.amount := VFloat 30%float;
     Bill.what := VStr (u "Dinner"); Bill.external_link := VNone;
     Bill.date := 738000%Z; Bill.owers := [alice; bob];
     Bill.original_currency := u "EUR";
     Bill.converted_amount := VFloat 30%float |}.

End SampleBill.

(* ===================================================================== *)
(** * Checks of the Python layer on concrete values *)
(* ===================================================================== *)

Example str_int_0 : str_int 0 = u "0".
Proof. reflexivity. Qed.

Example str_int_negative : str_int (-12) = u "-12".
Proof. reflexivity. Qed.

Example split_keeps_empty_pieces :
  split (ch ",") (u "a,,b,") = [u "a"; u ""; u "b"; u ""].
Proof. reflexivity. Qed.

Example strip_both_ends : strip (u "  a b ") = u "a b".
Proof. reflexivity. Qed.

Example str_never_equals_int : py_eq (VStr (u "0")) (VInt 0) = false.
Proof. reflexivity. Qed.

Example float_zero_equals_int : py_eq (VFloat 0%float) (VInt 0) = true.
Proof. vm_compute. reflexivity. Qed.

Example float_compared_exactly : py_eq (VFloat 2.5%float) (VInt 2) = false.
Proof. vm_compute. reflexivity. Qed.

Example false_equals_zero : py_eq (VBool false) (VInt 0) = true.
Proof. reflexivity. Qed.

(* ===================================================================== *)
(** * The regular expression, characterised *)
(* ===================================================================== *)

Section regex.

Variable cls : char -> bool.

Lemma repeat_upto_sound n s rest :
  In rest (re.repeat_upto cls n s) ->
  exists pre, s = pre ++ rest /\ (length pre <= n)%nat
              /\ forallb cls pre = true.
Proof.
  revert s. induction n as [|n IH]; intros s Hin.
  - destruct s; simpl in Hin; destruct Hin as [<-|[]];
      exists []; simpl; auto with arith.
  - destruct s as [|c s]; simpl in Hin.
    + destruct Hin as [<-|[]]. exists []; simpl; auto with arith.
    + destruct (cls c) eqn:Hc.
      * apply in_app_or in Hin as [Hin|[<-|[]]].
        -- destruct (IH _ Hin) as (pre & -> & Hlen & Hall).
           exists (c :: pre); simpl. rewrite Hc, Hall.
           repeat split; auto with arith.
        -- exists []; simpl; auto with arith.
      * destruct Hin as [<-|[]]. exists []; simpl; auto with arith.
Qed.

Lemma repeat_upto_complete n pre rest :
  (length pre <= n)%nat -> forallb cls pre = true ->
  In rest (re.repeat_upto cls n (pre ++ rest)).
Proof.
  revert pre. induction n as [|n IH]; intros pre Hlen Hall.
  - destruct pre; simpl in Hlen; [|lia].
    simpl. destruct rest; simpl; auto.
  - destruct pre as [|c pre]; simpl in *.
    + destruct rest as [|c r]; simpl; auto.
      destruct (cls c); simpl; auto.
      apply in_or_app; right; simpl; auto.
    + apply andb_true_iff in Hall as [Hc Hall]. rewrite Hc.
      apply in_or_app; left. apply IH; [lia|assumption].
Qed.

End regex.

Lemma amount_class_LF : re.amount_class LF = false.
Proof. reflexivity. Qed.

Lemma chomp_snoc_LF body : re.chomp (body ++ [LF]) = body.
Proof.
  unfold re.chomp. rewrite rev_app_distr. simpl.
  now rewrite rev_involutive.
Qed.

Lemma chomp_cases value :
  value = re.chomp value ++ [LF] \/
  (re.chomp value = value /\ forall body, value <> body ++ [LF]).
Proof.
  unfold re.chomp. destruct (rev value) as [|c r] eqn:Hrev.
  - right. apply (f_equal (@rev _)) in Hrev. rewrite rev_involutive in Hrev.
    simpl in Hrev. subst value. split; [reflexivity|].
    intros body H. destruct body; discriminate.
  - apply (f_equal (@rev _)) in Hrev. rewrite rev_involutive in Hrev.
    simpl in Hrev. destruct (N.eqb_spec c LF) as [->|Hne].
    + left. exact Hrev.
    + right. split; [reflexivity|]. intros body H. rewrite Hrev in H.
      apply app_inj_tail in H as [_ H]. contradiction.
Qed.

Lemma chomp_of_class value :
  forallb re.amount_class value = true -> re.chomp value = value.
Proof.
  intros Hall. destruct (chomp_cases value) as [H|[H _]]; [|exact H].
  rewrite H in Hall. rewrite forallb_app in Hall.
  apply andb_true_iff in Hall as [_ Hall].
  change (forallb re.amount_class [LF]) with (re.amount_class LF && true)
    in Hall.
  rewrite amount_class_LF in Hall. discriminate.
Qed.

(** The pattern matches exactly the strings that, without the line feed
    that may end them, are at most 200 characters of the class. *)
Lemma match_amount_spec value :
  re.match_amount value = true <->
  forallb re.amount_class (re.chomp value) = true
  /\ (length (re.chomp value) <= 200)%nat.
Proof.
  unfold re.match_amount. rewrite existsb_exists. split.
  - intros (rest & Hin & Hd).
    apply repeat_upto_sound in Hin as (pre & -> & Hlen & Hall).
    destruct rest as [|c [|? ?]]; simpl in Hd; try discriminate.
    + rewrite app_nil_r. rewrite (chomp_of_class _ Hall). auto.
    + apply N.eqb_eq in Hd as ->. rewrite chomp_snoc_LF. auto.
  - intros [Hall Hlen]. destruct (chomp_cases value) as [H|[H _]].
    + exists [LF]. split; [|reflexivity]. rewrite H at 1.
      now apply repeat_upto_complete.
    + exists []. split; [|reflexivity]. rewrite H in *.
      rewrite <- (app_nil_r value) at 1. now apply repeat_upto_complete.
Qed.

Lemma match_amount_false value :
  forallb re.amount_class (re.chomp value) = false
  \/ (200 < length (re.chomp value))%nat ->
  re.match_amount value = false.
Proof.
  intros H. destruct (re.match_amount value) eqn:Hm; [|reflexivity].
  apply match_amount_spec in Hm as [Hall Hlen].
  destruct H as [H|H]; [congruence|lia].
Qed.

(* ===================================================================== *)
(** * The amount field: [CalculatorStringField] and [BillForm] *)
(* ===================================================================== *)

Section amount.

Variable eval_arithmetic_expression : str -> result number.
Variable float_repr : float -> str.

Local Abbreviation process_formdata :=
  (CalculatorStringField.process_formdata eval_arithmetic_expression
     float_repr).
Local Abbreviation str_number := (CalculatorStringField.str_number float_repr).

Lemma refused_spec value :
  CalculatorStringField.refused value = false <->
  forallb re.amount_class (re.chomp value) = true
  /\ (length (re.chomp value) <= 200)%nat
  /\ contains (u "**") value = false.
Proof.
  unfold CalculatorStringField.refused.
  rewrite orb_false_iff, negb_false_iff, match_amount_spec. tauto.
Qed.

(** What a submitted amount stores is a string, whatever the evaluator
    returned. *)
Lemma process_formdata_stores_str self raw rest field valuelist :
  process_formdata self (raw :: rest) = (Return tt, field, valuelist) ->
  exists text, wtforms.data field = VStr text.
Proof.
  unfold CalculatorStringField.process_formdata.
  destruct (CalculatorStringField.refused _); [discriminate|].
  destruct (eval_arithmetic_expression _) as [n|e]; [|discriminate].
  intros [= <- _]. eexists. reflexivity.
Qed.

(** [validate_amount] compares that string with the integer 0: it never
    raises on a submitted amount. *)
Lemma validate_amount_accepts_every_submission self raw rest field
    valuelist :
  process_formdata self (raw :: rest) = (Return tt, field, valuelist) ->
  BillForm.validate_amount field = Return tt.
Proof.
  intros H. apply process_formdata_stores_str in H as [text H].
  unfold BillForm.validate_amount. rewrite H. reflexivity.
Qed.

(** C2 (amended). After commas are replaced by periods: a string of at
    most 200 characters among the space, the digits 0-9 and [. + - * / ( )],
    without "**", is handed to the evaluator, and the field stores the
    text [str(n)] of the number [n] it returns (when the evaluator raises,
    so does the field, and nothing is stored); a string that contains
    "**", or that, the line feed that may end it left aside, has another
    character or more than 200 characters, is refused with the
    ValueError "Not a valid amount or expression". *)
Theorem amount_processing (self : wtforms.Field) (raw : str)
    (rest : list str) :
  let value := replace (ch ",") (ch ".") raw in
  (forallb re.amount_class value = true ->
   (length value <= 200)%nat ->
   contains (u "**") value = false ->
   process_formdata self (raw :: rest) =
     match eval_arithmetic_expression value with
     | Return n =>
         (Return tt, wtforms.set_data self (VStr (str_number n)),
          str_number n :: rest)
     | Raise e => (Raise e, self, raw :: rest)
     end)
  /\ (contains (u "**") value = true
      \/ forallb re.amount_class (re.chomp value) = false
      \/ (200 < length (re.chomp value))%nat ->
      process_formdata self (raw :: rest) =
        (Raise (ValueError NotAValidAmount), self, raw :: rest)).
Proof.
  intros value. unfold CalculatorStringField.process_formdata.
  fold value. split.
  - intros Hall Hlen Hpow.
    assert (CalculatorStringField.refused value = false) as ->.
    { apply refused_spec. rewrite (chomp_of_class _ Hall). auto. }
    destruct (eval_arithmetic_expression value); reflexivity.
  - intros H.
    assert (CalculatorStringField.refused value = true) as ->;
      [|reflexivity].
    unfold CalculatorStringField.refused.
    destruct H as [H|H].
    + rewrite H. apply orb_true_r.
    + rewrite (match_amount_false _ H). reflexivity.
Qed.

(** C1 (the code at the failing input). When "2-2" evaluates to the
    integer 0, the submitted amount "2-2" is stored as the text "0" and
    the amount field validates: [DataRequired] sees a non-empty string
    and [validate_amount] compares the string with 0. *)
Theorem zero_amount_validates :
  eval_arithmetic_expression (u "2-2") = Return (Int 0) ->
  BillForm.amount_submitted eval_arithmetic_expression float_repr
    [u "2-2"]
  = Return (true, [], wtforms.mkField (VStr (u "0")) VNone).
Proof.
  intros Heval. unfold BillForm.amount_submitted.
  unfold CalculatorStringField.process_formdata.
  change (CalculatorStringField.refused
            (replace (ch ",") (ch ".") (u "2-2"))) with false.
  change (replace (ch ",") (ch ".") (u "2-2")) with (u "2-2").
  rewrite Heval. reflexivity.
Qed.

End amount.

Lemma amount_processing_witness :
  CalculatorStringField.process_formdata Sample.eval_arithmetic_expression
    Sample.float_repr (wtforms.mkField VNone VNone) [u "1+2"]
  = (Return tt, wtforms.mkField (VStr (u "3")) VNone, [u "3"])
  /\ CalculatorStringField.process_formdata
       Sample.eval_arithmetic_expression Sample.float_repr
       (wtforms.mkField VNone VNone) [u "2**3"]
     = (Raise (ValueError NotAValidAmount), wtforms.mkField VNone VNone,
        [u "2**3"]).
Proof.
  split.
  - apply (proj1 (amount_processing Sample.eval_arithmetic_expression
                    Sample.float_repr (wtforms.mkField VNone VNone)
                    (u "1+2") [])); [reflexivity | vm_compute; lia
                                    | reflexivity].
  - apply (proj2 (amount_processing Sample.eval_arithmetic_expression
                    Sample.float_repr (wtforms.mkField VNone VNone)
                    (u "2**3") [])).
    left. reflexivity.
Defined.

Lemma zero_amount_validates_witness :
  BillForm.amount_submitted Sample.eval_arithmetic_expression
    Sample.float_repr [u "2-2"]
  = Return (true, [], wtforms.mkField (VStr (u "0")) VNone).
Proof.
  apply (zero_amount_validates Sample.eval_arithmetic_expression
           Sample.float_repr).
  reflexivity.
Defined.

(** C2 (as stated, refuted). "1<TAB>+1" consists of digits, whitespace and
    an operator, is short and has no "**"; the field refuses it, whatever
    the evaluator: the character class of the pattern has the space and no
    other whitespace. *)
Lemma amount_with_tab_refused :
  let raw := u "1" ++ TAB :: u "+1" in
  Spec.amount_accepted (replace (ch ",") (ch ".") raw) = true
  /\ forall eval_arithmetic_expression float_repr self rest,
       CalculatorStringField.process_formdata eval_arithmetic_expression
         float_repr self (raw :: rest)
       = (Raise (ValueError NotAValidAmount), self, raw :: rest).
Proof.
  split; [reflexivity|]. intros. reflexivity.
Qed.

(** The pattern ends in [$], which also holds before a final line feed:
    the guard lets "1<LF>" through to the evaluator, and 200 digits
    followed by a line feed (201 characters) as well. *)
Example final_line_feed_passes_guard :
  CalculatorStringField.refused (u "1" ++ [LF]) = false
  /\ CalculatorStringField.refused (repeat (ch "1") 200 ++ [LF]) = false
  /\ CalculatorStringField.refused (repeat (ch "1") 201) = true
  /\ CalculatorStringField.refused (u "1" ++ [LF; LF]) = true.
Proof. vm_compute. auto. Qed.

(** C6. A comma and a period as decimal separator give the same outcome
    and the same stored value, in the weight field ([CommaDecimalField])
    and in the amount field ([CalculatorStringField]): both replace the
    commas by periods before anything else reads the text. *)
Theorem comma_like_period {Decimal : Type}
    (Decimal_of_str : str -> option Decimal)
    (eval_arithmetic_expression : str -> result number)
    (float_repr : float -> str)
    (weight : wtforms.DecimalField Decimal) (amount : wtforms.Field)
    (integer fraction : str) (rest : list str) :
  let with_comma := integer ++ ch "," :: fraction in
  let with_period := integer ++ ch "." :: fraction in
  fst (CommaDecimalField.process_formdata Decimal_of_str weight
         (with_comma :: rest))
  = fst (CommaDecimalField.process_formdata Decimal_of_str weight
           (with_period :: rest))
  /\ fst (CalculatorStringField.process_formdata eval_arithmetic_expression
            float_repr amount (with_comma :: rest))
     = fst (CalculatorStringField.process_formdata
              eval_arithmetic_expression float_repr amount
              (with_period :: rest)).
Proof.
  intros with_comma with_period.
  assert (replace (ch ",") (ch ".") with_comma
          = replace (ch ",") (ch ".") with_period) as Heq.
  { unfold with_comma, with_period, replace.
    rewrite !map_app. reflexivity. }
  split.
  - unfold CommaDecimalField.process_formdata. now rewrite Heq.
  - unfold CalculatorStringField.process_formdata. rewrite Heq.
    destruct (CalculatorStringField.refused _); [reflexivity|].
    destruct (eval_arithmetic_expression _); reflexivity.
Qed.

(** "1,5" and "1.5" in the amount field, with the sample evaluator. *)
Example amount_1_5 :
  CalculatorStringField.process_formdata Sample.eval_arithmetic_expression
    Sample.float_repr (wtforms.mkField VNone VNone) [u "1,5"]
  = (Return tt, wtforms.mkField (VStr (u "1.5")) VNone, [u "1.5"])
  /\ CalculatorStringField.process_formdata
       Sample.eval_arithmetic_expression Sample.float_repr
       (wtforms.mkField VNone VNone) [u "1.5"]
     = (Return tt, wtforms.mkField (VStr (u "1.5")) VNone, [u "1.5"]).
Proof. vm_compute. auto. Qed.

(* ===================================================================== *)
(** * [ProjectForm] and [EditProjectForm] *)
(* ===================================================================== *)

Section project_id.

Variable slugify : str -> str.

(** C3. When the slugified identifier is "dashboard", or is the id of a
    project of the store, [validate_id] raises the validation error (and
    leaves the slug in the form), whatever else the store holds. *)
Theorem validate_id_rejects (projects : gmap str Project)
    (form : EditProjectForm.t) :
  let slug := slugify (EditProjectForm.id form) in
  slug = u "dashboard" \/ is_Some (projects !! slug) ->
  ProjectForm.validate_id slugify projects form
  = (Raise (ValidationError (ProjectAlreadyExists slug)),
     EditProjectForm.set_id form slug).
Proof.
  intros slug H. unfold ProjectForm.validate_id. simpl. fold slug.
  destruct H as [H|H].
  - rewrite (bool_decide_eq_true_2 _ H). reflexivity.
  - rewrite (bool_decide_eq_true_2 (is_Some _) H), orb_true_r. reflexivity.
Qed.

(** Any other identifier passes. *)
Lemma validate_id_accepts (projects : gmap str Project)
    (form : EditProjectForm.t) :
  let slug := slugify (EditProjectForm.id form) in
  slug <> u "dashboard" -> projects !! slug = None ->
  ProjectForm.validate_id slugify projects form
  = (Return tt, EditProjectForm.set_id form slug).
Proof.
  intros slug Hd Hn. unfold ProjectForm.validate_id. simpl. fold slug.
  rewrite (bool_decide_eq_false_2 _ Hd).
  rewrite bool_decide_eq_false_2; [reflexivity|].
  rewrite Hn. intros [? ?]; discriminate.
Qed.

End project_id.

Lemma validate_id_rejects_witness :
  ProjectForm.validate_id Sample.slugify {[ u "trip" := Sample.trip ]}
    Sample.form
  = (Raise (ValidationError (ProjectAlreadyExists (u "trip"))),
     EditProjectForm.set_id Sample.form (u "trip"))
  /\ ProjectForm.validate_id Sample.slugify ∅
       (EditProjectForm.set_id Sample.form (u "dashboard"))
     = (Raise (ValidationError (ProjectAlreadyExists (u "dashboard"))),
        EditProjectForm.set_id Sample.form (u "dashboard")).
Proof.
  split.
  - apply (validate_id_rejects Sample.slugify {[ u "trip" := Sample.trip ]}
             Sample.form).
    right. vm_compute. eexists. reflexivity.
  - apply (validate_id_rejects Sample.slugify ∅
             (EditProjectForm.set_id Sample.form (u "dashboard"))).
    left. reflexivity.
Defined.

Section project_forms.

Context {Salt : Type}.
Variable generate_password_hash : Salt -> str -> str.
Variable check_password_hash : str -> str -> bool.
Variable switch_currency : Project -> str -> Project.
Variable LoggingMode_default : LoggingMode.

(** [Project.switch_currency] is about currencies and amounts: it leaves
    the password and the logging preference of the project as they are. *)
Hypothesis switch_currency_password : forall p currency,
  project_password (switch_currency p currency) = project_password p.
Hypothesis switch_currency_logging_preference : forall p currency,
  project_logging_preference (switch_currency p currency)
  = project_logging_preference p.

Local Abbreviation update :=
  (EditProjectForm.update generate_password_hash check_password_hash
     switch_currency).

(** C5. When the submitted code verifies against the stored hash,
    [update] leaves the hash as it is; when it does not, the hash becomes
    a fresh hash of the submitted code; so the hash changes only when the
    verification fails. *)
Theorem update_rehashes_only_on_change (salt : Salt)
    (self : EditProjectForm.t) (project : Project) :
  let submitted := EditProjectForm.password self in
  let verified := check_password_hash (project_password project) submitted in
  (verified = true ->
   project_password (update salt self project) = project_password project)
  /\ (verified = false ->
      project_password (update salt self project)
      = generate_password_hash salt submitted)
  /\ (project_password (update salt self project)
      <> project_password project -> verified = false).
Proof.
  intros submitted verified.
  assert (project_password (update salt self project)
          = if verified then project_password project
            else generate_password_hash salt submitted) as Hpw.
  { unfold EditProjectForm.update. rewrite switch_currency_password.
    simpl. fold submitted verified. destruct verified; reflexivity. }
  rewrite Hpw. destruct verified; repeat split; congruence.
Qed.

(** C8 (amended). On the update path the logging preference is the one
    the two toggles of the form select (history off: DISABLED; history on
    and IP recording off: ENABLED; both on: RECORD_IP), and so it is in
    [EditProjectForm.save]. On the creation path [ProjectForm.save] first
    overwrites both toggles from [LoggingMode.default()] and then selects
    in the same way: the created project has the default logging mode,
    whatever the toggles of the form were. *)
Theorem logging_preference_selected (salt : Salt)
    (self : EditProjectForm.t) (project : Project) :
  project_logging_preference (update salt self project)
  = Spec.selected_by_toggles (EditProjectForm.project_history self)
      (EditProjectForm.ip_recording self)
  /\ project_logging_preference
       (EditProjectForm.save generate_password_hash salt self)
     = Spec.selected_by_toggles (EditProjectForm.project_history self)
         (EditProjectForm.ip_recording self)
  /\ project_logging_preference
       (ProjectForm.save generate_password_hash LoggingMode_default salt
          self)
     = Spec.selected_by_toggles
         (negb (bool_decide (LoggingMode_default = DISABLED)))
         (bool_decide (LoggingMode_default = RECORD_IP))
  /\ project_logging_preference
       (ProjectForm.save generate_password_hash LoggingMode_default salt
          self)
     = LoggingMode_default.
Proof.
  repeat split.
  - unfold EditProjectForm.update.
    rewrite switch_currency_logging_preference. simpl.
    unfold EditProjectForm.logging_preference.
    destruct (EditProjectForm.project_history self),
      (EditProjectForm.ip_recording self); reflexivity.
  - simpl. unfold EditProjectForm.logging_preference.
    destruct (EditProjectForm.project_history self),
      (EditProjectForm.ip_recording self); reflexivity.
  - destruct LoggingMode_default; reflexivity.
  - destruct LoggingMode_default; reflexivity.
Qed.

End project_forms.

Lemma update_rehashes_only_on_change_witness :
  project_password
    (EditProjectForm.update Sample.generate_password_hash
       Sample.check_password_hash Sample.switch_currency (u "t")
       Sample.form Sample.trip)
  = u "s$secret"
  /\ project_password
       (EditProjectForm.update Sample.generate_password_hash
          Sample.check_password_hash Sample.switch_currency (u "t")
          (EditProjectForm.set_id Sample.form (u "x"))
          (set_project_password Sample.trip (u "s$other")))
     = u "t$secret".
Proof.
  split.
  - apply (proj1 (update_rehashes_only_on_change
                    Sample.generate_password_hash
                    Sample.check_password_hash Sample.switch_currency
                    (fun p c => eq_refl) (u "t") Sample.form Sample.trip)).
    reflexivity.
  - apply (proj1 (proj2 (update_rehashes_only_on_change
                    Sample.generate_password_hash
                    Sample.check_password_hash Sample.switch_currency
                    (fun p c => eq_refl) (u "t")
                    (EditProjectForm.set_id Sample.form (u "x"))
                    (set_project_password Sample.trip (u "s$other"))))).
    reflexivity.
Defined.

Lemma logging_preference_selected_witness :
  project_logging_preference
    (EditProjectForm.update Sample.generate_password_hash
       Sample.check_password_hash Sample.switch_currency (u "t")
       Sample.form (set_project_logging_preference Sample.trip DISABLED))
  = ENABLED
  /\ project_logging_preference
       (ProjectForm.save Sample.generate_password_hash RECORD_IP (u "t")
          Sample.form)
     = RECORD_IP.
Proof.
  pose proof (logging_preference_selected Sample.generate_password_hash
                Sample.check_password_hash Sample.switch_currency RECORD_IP
                (fun p c => eq_refl) (u "t") Sample.form
                (set_project_logging_preference Sample.trip DISABLED))
    as (Hupdate & _ & _ & Hcreate).
  split; [exact Hupdate | exact Hcreate].
Defined.

(** C8 (as stated, refuted). On the creation path the toggles of the
    submission do not select the preference. Whatever
    [LoggingMode.default()] is, some submission gets another mode than its
    toggles select: with history off the claim says DISABLED, and the
    project is created ENABLED under the default ENABLED and RECORD_IP
    under the default RECORD_IP; with history on and IP recording off the
    claim says ENABLED, and the project is created DISABLED under the
    default DISABLED. *)
Lemma creation_ignores_submitted_toggles :
  let history_on := Sample.form in
  let history_off := EditProjectForm.set_project_history Sample.form false in
  let created default form :=
    project_logging_preference
      (ProjectForm.save Sample.generate_password_hash default (u "t") form) in
  (Spec.selected_by_toggles false false = DISABLED
   /\ created ENABLED history_off = ENABLED
   /\ created RECORD_IP history_off = RECORD_IP)
  /\ (Spec.selected_by_toggles true false = ENABLED
      /\ created DISABLED history_on = DISABLED).
Proof. vm_compute. auto. Qed.

(* ===================================================================== *)
(** * [MemberForm] *)
(* ===================================================================== *)

Lemma active_namesakes_nil persons text project :
  MemberForm.active_namesakes persons (VStr text) project = [] <->
  (forall p, In p persons -> person_name p = text ->
             person_project p = project -> person_activated p = false).
Proof.
  unfold MemberForm.active_namesakes. induction persons as [|q qs IH].
  - simpl. split; [intros _ p []|reflexivity].
  - simpl. destruct (bool_decide (person_name q = text)) eqn:Hn;
      destruct (bool_decide (person_project q = project)) eqn:Hp;
      destruct (person_activated q) eqn:Ha; simpl;
      try apply bool_decide_eq_true_1 in Hn;
      try apply bool_decide_eq_true_1 in Hp;
      try apply bool_decide_eq_false_1 in Hn;
      try apply bool_decide_eq_false_1 in Hp.
    1: { split; [discriminate|]. intros H.
         specialize (H q (or_introl eq_refl) Hn Hp). congruence. }
    all: rewrite IH; split;
      [ intros H p [<-|Hin]; [congruence || tauto | now apply H]
      | intros H p Hin; apply H; now right ].
Qed.

(** C4. In [validate_name]: a name equal to the default of the field is
    rejected; outside edit mode a name borne by an active member of the
    same project is rejected, and a name that only deactivated members of
    the project bear is accepted; in edit mode the lookup of namesakes is
    not made at all, so no member, the edited one included, can trigger
    the duplicate error. *)
Theorem validate_name_cases (persons : list Person) (form : MemberForm.t)
    (field : wtforms.Field) :
  let is_default :=
    py_eq (wtforms.data field) (wtforms.default (MemberForm.name form)) in
  (is_default = true ->
   MemberForm.validate_name persons form field
   = Raise (ValidationError UserNameIncorrect))
  /\ (forall text p,
        wtforms.data field = VStr text -> MemberForm.edit form = false ->
        In p persons -> person_name p = text ->
        person_project p = MemberForm.project form ->
        person_activated p = true ->
        MemberForm.validate_name persons form field
        = Raise (ValidationError (if is_default then UserNameIncorrect
                                  else MemberAlreadyExists)))
  /\ (forall text,
        wtforms.data field = VStr text -> MemberForm.edit form = false ->
        is_default = false ->
        (forall p, In p persons -> person_name p = text ->
                   person_project p = MemberForm.project form ->
                   person_activated p = false) ->
        MemberForm.validate_name persons form field = Return tt)
  /\ (MemberForm.edit form = true -> is_default = false ->
      MemberForm.validate_name persons form field = Return tt).
Proof.
  intros is_default. unfold MemberForm.validate_name. fold is_default.
  repeat split.
  - intros ->. reflexivity.
  - intros text p Hdata Hedit Hin Hname Hproject Hactive.
    destruct is_default; [reflexivity|]. rewrite Hedit, Hdata. simpl.
    destruct (MemberForm.active_namesakes persons (VStr text)
                (MemberForm.project form)) eqn:Hq; [|reflexivity].
    pose proof (proj1 (active_namesakes_nil _ _ _) Hq p Hin Hname Hproject).
    congruence.
  - intros text Hdata Hedit -> Hall. rewrite Hedit, Hdata. simpl.
    apply (proj2 (active_namesakes_nil _ _ _)) in Hall. now rewrite Hall.
  - intros -> ->. reflexivity.
Qed.

Lemma validate_name_cases_witness :
  let alice := MemberForm.name_field (VStr (u "Alice")) in
  let adding edit :=
    {| MemberForm.name := alice; MemberForm.project := u "trip";
       MemberForm.edit := edit |} in
  MemberForm.validate_name [] (adding false) (MemberForm.name_field VNone)
  = Raise (ValidationError UserNameIncorrect)
  /\ MemberForm.validate_name [Sample.alice true] (adding false) alice
     = Raise (ValidationError MemberAlreadyExists)
  /\ MemberForm.validate_name [Sample.alice false] (adding false) alice
     = Return tt
  /\ MemberForm.validate_name [Sample.alice true] (adding true) alice
     = Return tt.
Proof.
  intros alice adding. split; [|split; [|split]].
  - apply (proj1 (validate_name_cases [] (adding false)
                    (MemberForm.name_field VNone))).
    reflexivity.
  - apply (proj1 (proj2 (validate_name_cases [Sample.alice true]
                           (adding false) alice))
             (u "Alice") (Sample.alice true)); try reflexivity.
    simpl. auto.
  - apply (proj1 (proj2 (proj2 (validate_name_cases [Sample.alice false]
                                  (adding false) alice)))
             (u "Alice")); try reflexivity.
    intros p [<-|[]] _ _. reflexivity.
  - apply (proj2 (proj2 (proj2 (validate_name_cases [Sample.alice true]
                                  (adding true) alice))));
      reflexivity.
Defined.

(** C9. [strip_filter] returns on every value: the stripped value when the
    value has a [strip] method ([str], and [bytes]), the value itself
    otherwise, [None] for [None]; and so does the chain of filters of the
    member name, which is [strip_filter] alone. *)
Theorem strip_filter_total (string : value) :
  let expected :=
    match string with
    | VStr s => VStr (strip s)
    | VBytes b => VBytes (strip_bytes b)
    | other => other
    end in
  strip_filter string = Return expected
  /\ wtforms.apply_filters MemberForm.name_filters string = Return expected
  /\ strip_filter VNone = Return VNone.
Proof.
  destruct string; repeat split; reflexivity.
Qed.

(** The [except Exception] clause is what makes it so: the lookup of
    [strip] does raise on the values without the method. *)
Example strip_raises_on_None :
  method_strip VNone = Raise AttributeError
  /\ strip_filter (VStr (u " Alice ")) = Return (VStr (u "Alice"))
  /\ strip_filter (VInt 3) = Return (VInt 3).
Proof. repeat split; reflexivity. Qed.

(* ===================================================================== *)
(** * [InviteForm] *)
(* ===================================================================== *)

Section invite.

Variable validate_email : str -> bool.

Local Abbreviation validate_each := (InviteForm.validate_each validate_email).
Local Abbreviation validate_emails :=
  (InviteForm.validate_emails validate_email).

Lemma validate_each_first_invalid (before : list str) (email : str)
    (after : list str) :
  forallb validate_email before = true ->
  validate_email email = false ->
  validate_each (before ++ email :: after)
  = Raise (ValidationError (EmailNotValid email)).
Proof.
  induction before as [|b before IH]; simpl; intros Hall Hbad.
  - now rewrite Hbad.
  - apply andb_true_iff in Hall as [-> Hall]. now apply IH.
Qed.

Lemma validate_each_all_valid (emails : list str) :
  forallb validate_email emails = true -> validate_each emails = Return tt.
Proof.
  induction emails as [|e emails IH]; simpl; [reflexivity|].
  intros Hall. apply andb_true_iff in Hall as [-> Hall]. now apply IH.
Qed.

(** C7. The addresses are the pieces between the commas, each stripped of
    its surrounding whitespace, checked one by one from the left: the
    error names the first one the email validator refuses, and there is
    no error when it refuses none. For "a@x.com, not-an-email, b@y.com",
    with a validator that takes "a@x.com" and refuses "not-an-email", the
    error names "not-an-email". *)
Theorem validate_emails_first_invalid (field : wtforms.Field)
    (emails : str) :
  wtforms.data field = VStr emails ->
  let addresses := List.map strip (split (ch ",") emails) in
  (forall before email after,
     addresses = before ++ email :: after ->
     forallb validate_email before = true ->
     validate_email email = false ->
     validate_emails field = Raise (ValidationError (EmailNotValid email)))
  /\ (forallb validate_email addresses = true ->
      validate_emails field = Return tt)
  /\ (emails = u "a@x.com, not-an-email, b@y.com" ->
      validate_email (u "a@x.com") = true ->
      validate_email (u "not-an-email") = false ->
      validate_emails field
      = Raise (ValidationError (EmailNotValid (u "not-an-email")))).
Proof.
  intros Hdata addresses.
  assert (validate_emails field = validate_each addresses) as ->.
  { unfold InviteForm.validate_emails. rewrite Hdata. reflexivity. }
  repeat split.
  - intros before email after -> Hall Hbad.
    now apply validate_each_first_invalid.
  - apply validate_each_all_valid.
  - intros -> Hgood Hbad.
    apply (validate_each_first_invalid [u "a@x.com"] (u "not-an-email")
             [u "b@y.com"]); [|exact Hbad].
    simpl. now rewrite Hgood.
Qed.

(** C10. The empty text splits into one empty address; when the email
    validator refuses the empty address, [validate_emails] raises, and the
    field [emails], which has no other validator, does not validate. *)
Theorem empty_invitation_rejected :
  validate_email [] = false ->
  split (ch ",") [] = [[]]
  /\ validate_emails (wtforms.mkField (VStr []) VNone)
     = Raise (ValidationError (EmailNotValid []))
  /\ InviteForm.emails_submitted validate_email []
     = Return (false, [EmailNotValid []]).
Proof.
  intros Hbad. split; [reflexivity|]. split.
  - unfold InviteForm.validate_emails. cbn. now rewrite Hbad.
  - unfold InviteForm.emails_submitted, wtforms.Field_validate,
      InviteForm.validate_emails. cbn. rewrite Hbad. reflexivity.
Qed.

End invite.

Lemma validate_emails_first_invalid_witness :
  InviteForm.validate_emails Sample.validate_email
    (wtforms.mkField (VStr (u "a@x.com, not-an-email, b@y.com")) VNone)
  = Raise (ValidationError (EmailNotValid (u "not-an-email"))).
Proof.
  apply (proj2 (proj2 (validate_emails_first_invalid Sample.validate_email
                         (wtforms.mkField
                            (VStr (u "a@x.com, not-an-email, b@y.com"))
                            VNone)
                         (u "a@x.com, not-an-email, b@y.com") eq_refl)));
    reflexivity.
Defined.

Lemma empty_invitation_rejected_witness :
  InviteForm.emails_submitted Sample.validate_email []
  = Return (false, [EmailNotValid []]).
Proof.
  apply (proj2 (proj2 (empty_invitation_rejected Sample.validate_email
                         eq_refl))).
Defined.

(* ===================================================================== *)
(** * Stripping, and the name of a member *)
(* ===================================================================== *)

Section leading.

Context {A : Type}.
Variable p : A -> bool.
Variable f : list A -> list A.
Hypothesis f_eq : forall s,
  f s = match s with
        | c :: s' => if p c then f s' else s
        | [] => []
        end.

(** [starts_clean s]: [s] does not begin with a character of [p]. *)
Let starts_clean (s : list A) : Prop :=
  match s with
  | c :: _ => p c = false
  | [] => True
  end.

Lemma leading_clean s : starts_clean (f s).
Proof.
  induction s as [|c s IH]; rewrite f_eq; simpl; [exact I|].
  destruct (p c) eqn:Hc; [exact IH|exact Hc].
Qed.

Lemma leading_fixed s : starts_clean s -> f s = s.
Proof.
  destruct s as [|c s]; intros H; rewrite f_eq; [reflexivity|].
  simpl in H. now rewrite H.
Qed.

Lemma leading_split s : exists w, s = w ++ f s /\ forallb p w = true.
Proof.
  induction s as [|c s (w & Hs & Hw)]; rewrite f_eq.
  - exists []. auto.
  - destruct (p c) eqn:Hc.
    + exists (c :: w). simpl. rewrite Hc, Hw. split; [congruence|reflexivity].
    + exists []. auto.
Qed.

(** Dropping from the right: [rev (f (rev s))]. *)
Lemma trailing_split s :
  exists w, s = rev (f (rev s)) ++ w /\ forallb p w = true.
Proof.
  destruct (leading_split (rev s)) as (w & Hs & Hw).
  exists (rev w). split.
  - rewrite <- rev_app_distr, <- Hs. now rewrite rev_involutive.
  - rewrite forallb_forall in *. intros x Hx. apply Hw.
    now apply in_rev.
Qed.

Lemma trailing_keeps_clean s :
  starts_clean s -> starts_clean (rev (f (rev s))).
Proof.
  intros H. destruct (trailing_split s) as (w & Hs & _).
  destruct (rev (f (rev s))) as [|c t]; [exact I|].
  rewrite Hs in H. exact H.
Qed.

Lemma trailing_clean s : starts_clean (rev (rev (f (rev s)))).
Proof. rewrite rev_involutive. apply leading_clean. Qed.

Lemma both_idempotent s :
  rev (f (rev (f (rev (f (rev (f s))))))) = rev (f (rev (f s))).
Proof.
  rewrite (leading_fixed (rev (f (rev (f s))))).
  - rewrite rev_involutive.
    now rewrite (leading_fixed (f (rev (f s))) (leading_clean _)).
  - apply trailing_keeps_clean, leading_clean.
Qed.

End leading.

Lemma lstrip_eq s :
  lstrip s = match s with
             | c :: s' => if isspace c then lstrip s' else s
             | [] => []
             end.
Proof. destruct s; reflexivity. Qed.

Lemma lstrip_bytes_eq s :
  lstrip_bytes s = match s with
                   | c :: s' => if isspace_byte c then lstrip_bytes s' else s
                   | [] => []
                   end.
Proof. destruct s; reflexivity. Qed.

Lemma strip_idempotent s : strip (strip s) = strip s.
Proof. apply (both_idempotent isspace lstrip lstrip_eq). Qed.

Lemma strip_bytes_idempotent s : strip_bytes (strip_bytes s) = strip_bytes s.
Proof. apply (both_idempotent isspace_byte lstrip_bytes lstrip_bytes_eq). Qed.

(** [strip s] is [s] without a run of whitespace at each end, and neither
    begins nor ends with whitespace. *)
Lemma strip_spec s :
  (exists l r, s = l ++ strip s ++ r
               /\ forallb isspace l = true /\ forallb isspace r = true)
  /\ match strip s with c :: _ => isspace c = false | [] => True end
  /\ match rev (strip s) with c :: _ => isspace c = false | [] => True end.
Proof.
  split; [|split].
  - destruct (leading_split isspace lstrip lstrip_eq s) as (l & Hl & Hlw).
    destruct (trailing_split isspace lstrip lstrip_eq (lstrip s))
      as (r & Hr & Hrw).
    exists l, r. split; [|auto]. unfold strip, rstrip.
    now rewrite <- Hr.
  - apply (trailing_keeps_clean isspace lstrip lstrip_eq).
    apply (leading_clean isspace lstrip lstrip_eq).
  - apply (trailing_clean isspace lstrip lstrip_eq).
Qed.

(** X1. Filtering twice is filtering once: what [strip_filter] returns is
    returned as it is when filtered again, for every value. *)
Theorem strip_filter_idempotent (string : value) :
  strip_filter string ≫= strip_filter = strip_filter string.
Proof.
  destruct string; try reflexivity.
  - change (Return (VStr (strip (strip s))) = Return (VStr (strip s))).
    now rewrite strip_idempotent.
  - change (Return (VBytes (strip_bytes (strip_bytes b)))
            = Return (VBytes (strip_bytes b))).
    now rewrite strip_bytes_idempotent.
Qed.

(** X2. On a string, [strip_filter] returns the string without the
    whitespace at its two ends and nothing else removed: the result
    neither begins nor ends with a whitespace character, and the string is
    the result between two runs of whitespace. *)
Theorem strip_filter_trims (s : str) :
  exists l t r,
    strip_filter (VStr s) = Return (VStr t)
    /\ s = l ++ t ++ r
    /\ forallb isspace l = true /\ forallb isspace r = true
    /\ match t with c :: _ => isspace c = false | [] => True end
    /\ match rev t with c :: _ => isspace c = false | [] => True end.
Proof.
  destruct (strip_spec s) as ((l & r & Hs & Hl & Hr) & Hhead & Hlast).
  exists l, (strip s), r. repeat split; assumption.
Qed.

Lemma DataRequired_str (field : wtforms.Field) (s : str) :
  wtforms.data field = VStr (strip s) ->
  wtforms.DataRequired field
  = if bool_decide (strip s = []) then Raise (StopValidation FieldRequired)
    else Return tt.
Proof.
  intros H. unfold wtforms.DataRequired. rewrite H. simpl.
  rewrite strip_idempotent.
  destruct (bool_decide (strip s = [])); reflexivity.
Qed.

(** X3. A submitted member name is stored stripped, and it is the stripped
    name that is checked: a name of whitespace only is refused as missing;
    outside edit mode a name that, once stripped, is the name of an active
    member of the project is refused as a duplicate, whatever whitespace
    surrounds it; a non-blank name is accepted in edit mode, and outside it
    when every member of the project bearing the stripped name is
    deactivated. *)
Theorem member_name_submitted (persons : list Person) (project : str)
    (edit : bool) (raw : str) :
  let stored := MemberForm.name_field (VStr (strip raw)) in
  let taken :=
    existsb (fun p => bool_decide (person_name p = strip raw)
                      && bool_decide (person_project p = project)
                      && person_activated p) persons in
  MemberName.submitted persons project edit raw
  = Return (if bool_decide (strip raw = []) then (false, [FieldRequired])
            else if negb edit && taken then (false, [MemberAlreadyExists])
            else (true, []),
            stored).
Proof.
  intros stored taken. unfold MemberName.submitted.
  change (validators.run_filters MemberForm.name_filters
            (wtforms.StringField_process_formdata
               (MemberForm.name_field VNone) [raw]))
    with (Return (@nil message), stored).
  cbv beta iota. unfold wtforms.Field_validate.
  set (form := {| MemberForm.name := stored; MemberForm.project := project;
                  MemberForm.edit := edit |}).
  change ([wtforms.DataRequired] ++ [MemberForm.validate_name persons form])
    with [wtforms.DataRequired; MemberForm.validate_name persons form].
  unfold wtforms.run_validation_chain.
  rewrite (DataRequired_str stored raw eq_refl).
  destruct (bool_decide (strip raw = [])); [reflexivity|].
  unfold MemberForm.validate_name.
  change (py_eq (wtforms.data stored)
            (wtforms.default (MemberForm.name form))) with false.
  change (wtforms.data stored) with (VStr (strip raw)).
  change (MemberForm.edit form) with edit.
  change (MemberForm.project form) with project.
  assert (match MemberForm.active_namesakes persons (VStr (strip raw))
                  project with
          | [] => false
          | _ :: _ => true
          end = taken) as ->.
  { unfold MemberForm.active_namesakes, taken.
    induction persons as [|q qs IH]; simpl; [reflexivity|].
    destruct (bool_decide (person_name q = strip raw)),
      (bool_decide (person_project q = project)),
      (person_activated q); simpl; auto. }
  destruct edit, taken; reflexivity.
Qed.

Example padded_duplicate_refused :
  MemberName.submitted [Sample.alice true] (u "trip") false (u "  Alice ")
  = Return (false, [MemberAlreadyExists],
            MemberForm.name_field (VStr (u "Alice"))).
Proof. reflexivity. Qed.

(* ===================================================================== *)
(** * The amount field, from submission to verdict *)
(* ===================================================================== *)

Lemma DataRequired_text (text : str) (d : value) :
  wtforms.DataRequired (wtforms.mkField (VStr text) d)
  = if bool_decide (strip text = []) then Raise (StopValidation FieldRequired)
    else Return tt.
Proof.
  unfold wtforms.DataRequired. simpl. destruct text as [|c text].
  - reflexivity.
  - destruct (bool_decide (strip (c :: text) = [])); reflexivity.
Qed.

Section amount_verdict.

Variable eval_arithmetic_expression : str -> result number.
Variable float_repr : float -> str.

Local Abbreviation amount_submitted :=
  (BillForm.amount_submitted eval_arithmetic_expression float_repr).
Local Abbreviation str_number := (CalculatorStringField.str_number float_repr).


End amount_verdict.


(* ===================================================================== *)
(** * Projects: the private code and the identifier *)
(* ===================================================================== *)

Section private_code.

Context {Salt : Type}.
Variable generate_password_hash : Salt -> str -> str.
Variable check_password_hash : str -> str -> bool.
Variable switch_currency : Project -> str -> Project.

(** A hash verifies against the code it was generated from. *)
Hypothesis hash_verifies : forall salt code,
  check_password_hash (generate_password_hash salt code) code = true.
Hypothesis switch_currency_keeps_password : forall p currency,
  project_password (switch_currency p currency) = project_password p.

Local Abbreviation update :=
  (EditProjectForm.update generate_password_hash check_password_hash
     switch_currency).
Local Abbreviation save :=
  (EditProjectForm.save generate_password_hash).

Lemma update_password (salt : Salt) (self : EditProjectForm.t)
    (project : Project) :
  project_password (update salt self project)
  = if check_password_hash (project_password project)
         (EditProjectForm.password self)
    then project_password project
    else generate_password_hash salt (EditProjectForm.password self).
Proof.
  unfold EditProjectForm.update. rewrite switch_currency_keeps_password.
  simpl. destruct (check_password_hash _ _); reflexivity.
Qed.

Lemma update_verifies (salt : Salt) (self : EditProjectForm.t)
    (project : Project) :
  check_password_hash (project_password (update salt self project))
    (EditProjectForm.password self) = true.
Proof.
  rewrite update_password.
  destruct (check_password_hash (project_password project) _) eqn:H;
    [exact H | apply hash_verifies].
Qed.

(** X5. After [update], the code of the form verifies against the stored
    hash, whether the hash was replaced or kept; and so it does against
    the hash of a project [save] creates. *)
Theorem stored_hash_verifies (salt : Salt) (self : EditProjectForm.t)
    (project : Project) :
  check_password_hash (project_password (update salt self project))
    (EditProjectForm.password self) = true
  /\ check_password_hash (project_password (save salt self))
       (EditProjectForm.password self) = true.
Proof.
  split; [apply update_verifies | apply hash_verifies].
Qed.

(** X6. Submitting the same form again does not rehash: a second [update]
    leaves the hash of the first, and an [update] of a project that [save]
    created from the same form leaves the hash [save] made, whatever salt
    the second call draws. *)
Theorem resubmission_keeps_hash (salt salt' : Salt)
    (self : EditProjectForm.t) (project : Project) :
  project_password (update salt' self (update salt self project))
  = project_password (update salt self project)
  /\ project_password (update salt' self (save salt self))
     = project_password (save salt self).
Proof.
  split.
  - rewrite (update_password salt'). now rewrite update_verifies.
  - rewrite (update_password salt'). simpl. now rewrite hash_verifies.
Qed.

End private_code.

Lemma sample_hash_verifies (salt : unit) (code : str) :
  Sample.check_password_hash
    (Sample.generate_password_hash (u "s") code) code = true.
Proof. apply bool_decide_eq_true_2. reflexivity. Qed.

Lemma stored_hash_verifies_witness :
  Sample.check_password_hash
    (project_password
       (EditProjectForm.update
          (fun _ : unit => Sample.generate_password_hash (u "s"))
          Sample.check_password_hash Sample.switch_currency tt Sample.form
          (set_project_password Sample.trip (u "s$other"))))
    (u "secret") = true.
Proof.
  apply (proj1 (stored_hash_verifies
                  (fun _ : unit => Sample.generate_password_hash (u "s"))
                  Sample.check_password_hash Sample.switch_currency
                  sample_hash_verifies (fun p c => eq_refl) tt Sample.form
                  (set_project_password Sample.trip (u "s$other")))).
Defined.

Lemma resubmission_keeps_hash_witness :
  project_password
    (EditProjectForm.update
       (fun _ : unit => Sample.generate_password_hash (u "s"))
       Sample.check_password_hash Sample.switch_currency tt Sample.form
       (EditProjectForm.update
          (fun _ : unit => Sample.generate_password_hash (u "s"))
          Sample.check_password_hash Sample.switch_currency tt Sample.form
          (set_project_password Sample.trip (u "s$other"))))
  = u "s$secret".
Proof.
  rewrite (proj1 (resubmission_keeps_hash
                    (fun _ : unit => Sample.generate_password_hash (u "s"))
                    Sample.check_password_hash Sample.switch_currency
                    sample_hash_verifies (fun p c => eq_refl) tt tt
                    Sample.form
                    (set_project_password Sample.trip (u "s$other")))).
  reflexivity.
Defined.

Section identifier.

Context {Salt : Type}.
Variable generate_password_hash : Salt -> str -> str.
Variable LoggingMode_default : LoggingMode.
Variable slugify : str -> str.

Local Abbreviation validate_id := (ProjectForm.validate_id slugify).
Local Abbreviation create :=
  (ProjectForm.save generate_password_hash LoggingMode_default).

Lemma validate_id_form (projects : gmap str Project)
    (form : EditProjectForm.t) :
  snd (validate_id projects form)
  = EditProjectForm.set_id form (slugify (EditProjectForm.id form)).
Proof.
  unfold ProjectForm.validate_id.
  destruct (_ || _); reflexivity.
Qed.

Lemma validate_id_outcome (projects : gmap str Project)
    (form : EditProjectForm.t) :
  let slug := slugify (EditProjectForm.id form) in
  fst (validate_id projects form)
  = if bool_decide (slug = u "dashboard")
       || bool_decide (is_Some (projects !! slug))
    then Raise (ValidationError (ProjectAlreadyExists slug))
    else Return tt.
Proof.
  unfold ProjectForm.validate_id. simpl.
  destruct (_ || _); reflexivity.
Qed.

Lemma validate_id_returns (projects : gmap str Project)
    (form : EditProjectForm.t) :
  let slug := slugify (EditProjectForm.id form) in
  fst (validate_id projects form) = Return tt
  <-> slug <> u "dashboard" /\ projects !! slug = None.
Proof.
  intros slug. rewrite validate_id_outcome. fold slug.
  destruct (bool_decide (slug = u "dashboard")) eqn:Hd;
    destruct (bool_decide (is_Some (projects !! slug))) eqn:Hs; simpl;
    try apply bool_decide_eq_true_1 in Hd;
    try apply bool_decide_eq_true_1 in Hs;
    try apply bool_decide_eq_false_1 in Hd;
    try apply bool_decide_eq_false_1 in Hs.
  - split; [discriminate|]. intros [H _]. contradiction.
  - split; [discriminate|]. intros [H _]. contradiction.
  - split; [discriminate|]. intros [_ H]. rewrite H in Hs.
    destruct Hs; discriminate.
  - split; [|reflexivity]. intros _. split; [exact Hd|].
    destruct (projects !! slug) eqn:H; [|reflexivity].
    exfalso. apply Hs. eauto.
Qed.

(** X7. [validate_id] returns exactly when the slug of the identifier is
    not "dashboard" and is the id of no project of the store; returning or
    raising, it leaves the slug as the identifier of the form and touches
    no other field. *)
Theorem validate_id_returns_iff (projects : gmap str Project)
    (form : EditProjectForm.t) :
  let slug := slugify (EditProjectForm.id form) in
  (fst (validate_id projects form) = Return tt
   <-> slug <> u "dashboard" /\ projects !! slug = None)
  /\ snd (validate_id projects form) = EditProjectForm.set_id form slug.
Proof.
  intros slug. split; [apply validate_id_returns | apply validate_id_form].
Qed.

(** X8. Creating twice fails the second time. When [validate_id] accepts
    a form, the project [save] builds from the validated form has the slug
    as id, an id that is not "dashboard" and is free in the store; once
    that project is stored under its id, [validate_id] refuses the same
    submission, and [PasswordReminder.validate_id] accepts the id. *)
Theorem created_project_blocks_its_id (projects : gmap str Project)
    (form : EditProjectForm.t) (salt : Salt) :
  fst (validate_id projects form) = Return tt ->
  let created := create salt (snd (validate_id projects form)) in
  let projects' := <[project_id created := created]> projects in
  project_id created = slugify (EditProjectForm.id form)
  /\ project_id created <> u "dashboard"
  /\ projects !! project_id created = None
  /\ fst (validate_id projects' form)
     = Raise (ValidationError (ProjectAlreadyExists (project_id created)))
  /\ PasswordReminder.validate_id projects' (project_id created)
     = Return tt.
Proof.
  intros Hok created projects'.
  assert (project_id created = slugify (EditProjectForm.id form)) as Hid.
  { unfold created. rewrite validate_id_form. reflexivity. }
  apply (proj1 (validate_id_returns projects form)) in Hok as [Hd Hn].
  rewrite Hid. repeat split; try assumption.
  - rewrite validate_id_outcome. unfold projects'. rewrite Hid.
    rewrite lookup_insert_eq.
    rewrite (bool_decide_eq_true_2 (is_Some (Some created))); [|eauto].
    now rewrite orb_true_r.
  - unfold PasswordReminder.validate_id, projects'. rewrite Hid.
    rewrite lookup_insert_eq.
    rewrite (bool_decide_eq_true_2 (is_Some (Some created))); [|eauto].
    reflexivity.
Qed.

(** X9. For an identifier that is its own slug and is not "dashboard",
    the two forms are complementary on every store: the creation form
    accepts the identifier exactly when the reminder form refuses it. *)
Theorem creation_and_reminder_complementary (projects : gmap str Project)
    (form : EditProjectForm.t) :
  slugify (EditProjectForm.id form) = EditProjectForm.id form ->
  EditProjectForm.id form <> u "dashboard" ->
  returns (fst (validate_id projects form))
  = negb (returns (PasswordReminder.validate_id projects
                     (EditProjectForm.id form))).
Proof.
  intros Hslug Hd. rewrite validate_id_outcome. rewrite Hslug.
  unfold PasswordReminder.validate_id.
  rewrite (bool_decide_eq_false_2 _ Hd). simpl.
  destruct (bool_decide (is_Some (projects !! EditProjectForm.id form)));
    reflexivity.
Qed.

End identifier.

Lemma created_project_blocks_its_id_witness :
  fst (ProjectForm.validate_id Sample.slugify
         {[ u "trip" := Sample.trip ]} Sample.form)
  = Raise (ValidationError (ProjectAlreadyExists (u "trip"))).
Proof.
  pose proof (created_project_blocks_its_id
                (fun _ : unit => Sample.generate_password_hash (u "s"))
                ENABLED Sample.slugify ∅ Sample.form tt eq_refl)
    as (_ & _ & _ & H & _).
  exact H.
Defined.

Lemma creation_and_reminder_complementary_witness :
  returns (fst (ProjectForm.validate_id Sample.slugify
                  {[ u "trip" := Sample.trip ]} Sample.form))
  = negb (returns (PasswordReminder.validate_id
                     {[ u "trip" := Sample.trip ]} (u "trip"))).
Proof.
  apply (creation_and_reminder_complementary Sample.slugify
           {[ u "trip" := Sample.trip ]} Sample.form).
  - reflexivity.
  - intros H. vm_compute in H. discriminate.
Defined.

(* ===================================================================== *)
(** * Bills: [save], [fill], [fake_form] and [get_billform_for] *)
(* ===================================================================== *)

Section bills.

Context {Date person : Type}.
Variable person_id : person -> Z.
Variable person_name : person -> str.
Variable Person_query_get : Z -> Project -> result person.
Variable active_members : Project -> list person.
Variable exchange_currency : value -> str -> str -> value.
Variable get_currencies : bool -> list str.
Variable no_currency : str.
Variable render_localized_currency : str -> bool -> str.

Local Abbreviation get_owers := (BillFields.get_owers Person_query_get).
Local Abbreviation save :=
  (@BillFields.save Date person Person_query_get exchange_currency).
Local Abbreviation fake_form :=
  (@BillFields.fake_form Date person Person_query_get exchange_currency
     no_currency).
Local Abbreviation fill :=
  (@BillFields.fill Date person person_id render_localized_currency).
Local Abbreviation get_billform_for :=
  (@BillFields.get_billform_for Date person person_id person_name
     active_members get_currencies no_currency render_localized_currency).

Lemma get_owers_found (project : Project) (found : list person) :
  Forall (fun o => Person_query_get (person_id o) project = Return o) found ->
  get_owers (List.map person_id found) project = Return found.
Proof.
  induction 1 as [|o found Ho _ IH]; [reflexivity|].
  cbn. rewrite Ho. cbn. rewrite IH. reflexivity.
Qed.

Lemma get_owers_ids (project : Project) (ids : list Z)
    (found : list person) :
  (forall id p, Person_query_get id project = Return p -> person_id p = id) ->
  get_owers ids project = Return found ->
  List.map person_id found = ids.
Proof.
  intros Hid. revert found. induction ids as [|i ids IH]; intros found.
  - intros [= <-]. reflexivity.
  - cbn. destruct (Person_query_get i project) as [p|e] eqn:Hp;
      [|discriminate]. cbn.
    destruct (BillFields.get_owers Person_query_get ids project)
      as [ps|e] eqn:Hps; [|discriminate]. cbn.
    intros [= <-]. cbn. rewrite (Hid _ _ Hp), (IH ps eq_refl). reflexivity.
Qed.

Lemma get_owers_raises (project : Project) (before : list Z) (id : Z)
    (after : list Z) (e : exception) :
  Forall (fun i => returns (Person_query_get i project) = true) before ->
  Person_query_get id project = Raise e ->
  get_owers (before ++ id :: after) project = Raise e.
Proof.
  intros Hb He. induction Hb as [|i before Hi _ IH]; cbn.
  - rewrite He. reflexivity.
  - destruct (Person_query_get i project); [|discriminate]. cbn.
    rewrite IH. reflexivity.
Qed.

(** X10. Filling a form from a bill and saving it gives the bill back,
    with its converted amount computed anew: provided each ower of the bill
    is what the lookup of its id in the project returns, [save] after
    [fill] returns, and the bill it leaves has the payer, amount,
    description, link, date, owers and currency of the bill the form was
    filled from, whatever bill it was saved into. *)
Theorem save_after_fill (self : BillFields.t Date)
    (bill target : Bill.t Date person) (project : Project) :
  Forall (fun o => Person_query_get (person_id o) project = Return o)
    (Bill.owers bill) ->
  save (fill self bill project) target project
  = (Return tt,
     {| Bill.payer_id := Bill.payer_id bill;
        Bill.amount := Bill.amount bill;
        Bill.what := Bill.what bill;
        Bill.external_link := Bill.external_link bill;
        Bill.date := Bill.date bill;
        Bill.owers := Bill.owers bill;
        Bill.original_currency := Bill.original_currency bill;
        Bill.converted_amount :=
          exchange_currency (Bill.amount bill) (Bill.original_currency bill)
            (project_default_currency project) |}).
Proof.
  intros Hfound. unfold BillFields.save, BillFields.fill. cbn.
  rewrite (get_owers_found project _ Hfound). reflexivity.
Qed.

(** X11. Saving a form and filling it from the saved bill gives the data
    of the form back: provided a lookup that returns a person returns one
    with the id asked for, when [save] returns, [fill] from the bill it
    leaves restores the date, description, payer, amount, currency, link
    and ticked payees of the form, keeps its choices, and sets the label
    and the description of the currency field. *)
Theorem fill_after_save (self : BillFields.t Date)
    (bill saved : Bill.t Date person) (project : Project) :
  (forall id p, Person_query_get id project = Return p -> person_id p = id) ->
  save self bill project = (Return tt, saved) ->
  fill self saved project
  = {| BillFields.date := BillFields.date self;
       BillFields.what := BillFields.what self;
       BillFields.payer := BillFields.payer self;
       BillFields.amount := BillFields.amount self;
       BillFields.original_currency :=
         {| BillFields.currency_data :=
              BillFields.currency_data (BillFields.original_currency self);
            BillFields.currency_choices :=
              BillFields.currency_choices (BillFields.original_currency self);
            BillFields.currency_label :=
              BillFields.Label (u "original_currency") (u "Currency");
            BillFields.currency_description :=
              Some (BillFields.ProjectDefault
                      (render_localized_currency
                         (project_default_currency project) false)) |};
       BillFields.external_link := BillFields.external_link self;
       BillFields.payed_for := BillFields.payed_for self |}.
Proof.
  intros Hid. unfold BillFields.save.
  destruct (BillFields.get_owers Person_query_get _ project)
    as [found|e] eqn:Hfound; [|discriminate].
  intros [= <-]. unfold BillFields.fill. cbn.
  rewrite (get_owers_ids project _ found Hid Hfound).
  destruct self as [d w [pd pc] a oc l [yd yc yf]]. reflexivity.
Qed.

(** X12. When the lookup of a payee raises, [save] raises the same
    exception, that of the first payee that cannot be looked up, and the
    bill is left half assigned: it has the payer, amount, description,
    link and date of the form, and still its former owers, currency and
    converted amount. *)
Theorem save_with_unknown_payee (self : BillFields.t Date)
    (bill : Bill.t Date person) (project : Project)
    (before : list Z) (id : Z) (after : list Z) (e : exception) :
  BillFields.payees_data (BillFields.payed_for self)
  = before ++ id :: after ->
  Forall (fun i => returns (Person_query_get i project) = true) before ->
  Person_query_get id project = Raise e ->
  save self bill project
  = (Raise e,
     {| Bill.payer_id := BillFields.payer_data (BillFields.payer self);
        Bill.amount := BillFields.amount self;
        Bill.what := BillFields.what self;
        Bill.external_link := BillFields.external_link self;
        Bill.date := BillFields.date self;
        Bill.owers := Bill.owers bill;
        Bill.original_currency := Bill.original_currency bill;
        Bill.converted_amount := Bill.converted_amount bill |}).
Proof.
  intros Hids Hbefore Hraise. unfold BillFields.save.
  rewrite Hids, (get_owers_raises project before id after e Hbefore Hraise).
  reflexivity.
Qed.

(** X13. [fake_form] builds the bill that [save] builds from a form with
    the same payer, amount, description, date and payees, an empty link
    and the currency [no_currency]; and fails as it does. *)
Theorem fake_form_as_save (fake : BillFields.Fake Date)
    (base : BillFields.t Date) (bill : Bill.t Date person)
    (project : Project) :
  fake_form fake bill project
  = save
      {| BillFields.date := BillFields.fake_date fake;
         BillFields.what := BillFields.fake_what fake;
         BillFields.payer :=
           {| BillFields.payer_data := BillFields.fake_payer fake;
              BillFields.payer_choices :=
                BillFields.payer_choices (BillFields.payer base) |};
         BillFields.amount := BillFields.fake_amount fake;
         BillFields.original_currency :=
           {| BillFields.currency_data := no_currency;
              BillFields.currency_choices :=
                BillFields.currency_choices
                  (BillFields.original_currency base);
              BillFields.currency_label :=
                BillFields.currency_label (BillFields.original_currency base);
              BillFields.currency_description :=
                BillFields.currency_description
                  (BillFields.original_currency base) |};
         BillFields.external_link := VStr [];
         BillFields.payed_for :=
           {| BillFields.payees_data := BillFields.fake_payed_for fake;
              BillFields.payees_choices :=
                BillFields.payees_choices (BillFields.payed_for base);
              BillFields.payees_default :=
                BillFields.payees_default (BillFields.payed_for base) |} |}
      bill project.
Proof.
  unfold BillFields.fake_form, BillFields.save. cbn.
  destruct (BillFields.get_owers Person_query_get _ project); reflexivity.
Qed.

(** X14. The payees of the form [get_billform_for] returns. The choices of
    payer and of payees are the active members of the project, in their
    order; on a GET request with [set_default] on, every one of them is
    ticked (the ticked ids are the ids of the choices); on any other
    request, or with [set_default] off, the ticked payees of the form are
    left as they were. *)
Theorem billform_payees (project : Project) (with_default : bool)
    (method : str) (form : BillFields.t Date) :
  let form' := get_billform_for project with_default method form in
  let members :=
    List.map (fun m => (person_id m, person_name m))
      (active_members project) in
  BillFields.payer_choices (BillFields.payer form') = members
  /\ BillFields.payees_choices (BillFields.payed_for form') = members
  /\ BillFields.payees_data (BillFields.payed_for form')
     = (if with_default && bool_decide (method = u "GET")
        then List.map fst
               (BillFields.payees_choices (BillFields.payed_for form'))
        else BillFields.payees_data (BillFields.payed_for form)).
Proof.
  unfold BillFields.get_billform_for.
  destruct (with_default && bool_decide (method = u "GET")); cbn;
    repeat split.
  rewrite map_map. reflexivity.
Qed.

(** X15. The currency of the form [get_billform_for] returns. A form whose
    currency is the text "None" gets the default currency of the project,
    any other currency is kept; the option [no_currency] is asked of
    [get_currencies] exactly when that resulting currency is
    [no_currency], so a form without currency in a project whose default
    is [no_currency] is offered it; the payer, amount, description, date
    and link of the form are not touched. *)
Theorem billform_currency (project : Project) (with_default : bool)
    (method : str) (form : BillFields.t Date) :
  let form' := get_billform_for project with_default method form in
  let before := BillFields.currency_data (BillFields.original_currency form) in
  let after := BillFields.currency_data (BillFields.original_currency form') in
  after = (if bool_decide (before = u "None")
           then project_default_currency project else before)
  /\ List.map fst
       (BillFields.currency_choices (BillFields.original_currency form'))
     = get_currencies (bool_decide (after = no_currency))
  /\ (BillFields.date form', BillFields.what form',
      BillFields.payer_data (BillFields.payer form'),
      BillFields.amount form', BillFields.external_link form')
     = (BillFields.date form, BillFields.what form,
        BillFields.payer_data (BillFields.payer form),
        BillFields.amount form, BillFields.external_link form).
Proof.
  unfold BillFields.get_billform_for.
  destruct (with_default && bool_decide (method = u "GET")); cbn;
    (split; [reflexivity|]); (split; [|reflexivity]);
    rewrite map_map; cbn; apply map_id.
Qed.

End bills.

Lemma save_after_fill_witness :
  BillFields.save SampleBill.Person_query_get SampleBill.exchange_currency
    (BillFields.fill SampleBill.person_id
       SampleBill.render_localized_currency SampleBill.form SampleBill.bill
       Sample.trip)
    SampleBill.bill Sample.trip
  = (Return tt, SampleBill.bill).
Proof.
  apply (save_after_fill SampleBill.person_id SampleBill.Person_query_get
           SampleBill.exchange_currency
           SampleBill.render_localized_currency SampleBill.form
           SampleBill.bill SampleBill.bill Sample.trip).
  repeat constructor.
Defined.

Lemma fill_after_save_witness :
  BillFields.payees_data
    (BillFields.payed_for
       (BillFields.fill SampleBill.person_id
          SampleBill.render_localized_currency SampleBill.form
          (snd (BillFields.save SampleBill.Person_query_get
                  SampleBill.exchange_currency SampleBill.form
                  SampleBill.bill Sample.trip))
          Sample.trip))
  = [2%Z].
Proof.
  rewrite (fill_after_save SampleBill.person_id SampleBill.Person_query_get
             SampleBill.exchange_currency
             SampleBill.render_localized_currency SampleBill.form
             SampleBill.bill _ Sample.trip).
  - reflexivity.
  - intros id p. unfold SampleBill.Person_query_get.
    destruct (Z.eqb_spec id 1) as [->|_]; [intros [= <-]; reflexivity|].
    destruct (Z.eqb_spec id 2) as [->|_]; [intros [= <-]; reflexivity|].
    discriminate.
  - reflexivity.
Defined.

Lemma save_with_unknown_payee_witness :
  let form :=
    {| BillFields.date := BillFields.date SampleBill.form;
       BillFields.what := BillFields.what SampleBill.form;
       BillFields.payer := BillFields.payer SampleBill.form;
       BillFields.amount := BillFields.amount SampleBill.form;
       BillFields.original_currency :=
         BillFields.original_currency SampleBill.form;
       BillFields.external_link := BillFields.external_link SampleBill.form;
       BillFields.payed_for :=
         {| BillFields.payees_data := [1%Z; 7%Z; 2%Z];
            BillFields.payees_choices := [];
            BillFields.payees_default := [] |} |} in
  let outcome :=
    BillFields.save SampleBill.Person_query_get SampleBill.exchange_currency
      form SampleBill.bill Sample.trip in
  returns (fst outcome) = false
  /\ Bill.amount (snd outcome) = VStr (u "30")
  /\ Bill.owers (snd outcome) = [SampleBill.alice; SampleBill.bob].
Proof.
  intros form outcome. unfold outcome.
  rewrite (save_with_unknown_payee SampleBill.Person_query_get
             SampleBill.exchange_currency form SampleBill.bill Sample.trip
             [1%Z] 7%Z [2%Z]
             (ValueError (OtherMessage (u "No row was found")))).
  - repeat split.
  - reflexivity.
  - repeat constructor.
  - reflexivity.
Defined.

(* ===================================================================== *)
(** * Invitations: the outcomes of [validate_emails] *)
(* ===================================================================== *)

Lemma split_not_nil sep s : split sep s <> [].
Proof.
  destruct s as [|c s]; simpl; [discriminate|].
  destruct (c =? sep); [discriminate|].
  destruct (split sep s); discriminate.
Qed.

Lemma split_app sep a b :
  split sep (a ++ sep :: b) = split sep a ++ split sep b.
Proof.
  induction a as [|c a IH]; simpl.
  - now rewrite N.eqb_refl.
  - destruct (c =? sep); [now rewrite IH|].
    rewrite IH. destruct (split sep a) as [|p ps] eqn:Hs; [|reflexivity].
    now apply split_not_nil in Hs.
Qed.

Lemma split_without sep w :
  forallb (fun c => negb (c =? sep)) w = true -> split sep w = [w].
Proof.
  induction w as [|c w IH]; simpl; [reflexivity|].
  intros H. apply andb_true_iff in H as [Hc Hw].
  apply negb_true_iff in Hc. rewrite Hc. now rewrite (IH Hw).
Qed.

Lemma split_whitespace w :
  forallb isspace w = true -> split (ch ",") w = [w].
Proof.
  intros H. apply split_without. rewrite forallb_forall in *.
  intros c Hc. specialize (H c Hc).
  destruct (N.eqb_spec c (ch ",")) as [->|_]; [discriminate|reflexivity].
Qed.

Lemma strip_whitespace w : forallb isspace w = true -> strip w = [].
Proof.
  intros H. assert (lstrip w = []) as Hl.
  { induction w as [|c w IH]; simpl in *; [reflexivity|].
    apply andb_true_iff in H as [-> Hw]. now apply IH. }
  unfold strip. now rewrite Hl.
Qed.

Section invitations.

Variable validate_email : str -> bool.

Local Abbreviation validate_each := (InviteForm.validate_each validate_email).
Local Abbreviation validate_emails :=
  (InviteForm.validate_emails validate_email).

Lemma validate_each_outcome (emails : list str) :
  (forallb validate_email emails = true /\ validate_each emails = Return tt)
  \/ (exists email,
        In email emails /\ validate_email email = false
        /\ validate_each emails
           = Raise (ValidationError (EmailNotValid email))).
Proof.
  induction emails as [|e emails IH]; simpl; [left; auto|].
  destruct (validate_email e) eqn:He.
  - destruct IH as [[Hall Hret]|(email & Hin & Hbad & Hraise)].
    + left. now rewrite Hall.
    + right. exists email. auto.
  - right. exists e. auto.
Qed.

Lemma validate_emails_str (field : wtforms.Field) (emails : str) :
  wtforms.data field = VStr emails ->
  validate_emails field
  = validate_each (List.map strip (split (ch ",") emails)).
Proof.
  intros H. unfold InviteForm.validate_emails. rewrite H. reflexivity.
Qed.

(** X16. The outcomes of [validate_emails] on a text. It returns exactly
    when the email validator takes every stripped piece; otherwise it
    raises a ValidationError, never anything else, and the address the
    error names is one of the stripped pieces, one the validator refuses. *)
Theorem validate_emails_outcomes (field : wtforms.Field) (emails : str) :
  wtforms.data field = VStr emails ->
  let addresses := List.map strip (split (ch ",") emails) in
  (validate_emails field = Return tt
   <-> forallb validate_email addresses = true)
  /\ (forall e, validate_emails field = Raise e ->
        exists email, e = ValidationError (EmailNotValid email)
                      /\ In email addresses
                      /\ validate_email email = false).
Proof.
  intros Hdata addresses. rewrite (validate_emails_str _ _ Hdata).
  fold addresses.
  destruct (validate_each_outcome addresses)
    as [[Hall ->]|(email & Hin & Hbad & ->)].
  - split; [tauto|discriminate].
  - split.
    + split; [discriminate|]. intros Hall.
      rewrite forallb_forall in Hall. rewrite (Hall _ Hin) in Hbad.
      discriminate.
    + intros e [= <-]. eauto.
Qed.

(** X17. A list with an empty place does not validate. When the email
    validator refuses the empty address, a text in which nothing but
    whitespace stands between two commas, before the first comma or after
    the last one (a doubled, leading or trailing comma) makes
    [validate_emails] raise, whatever the other addresses are. *)
Theorem empty_place_rejected (field : wtforms.Field) (emails : str)
    (a w b : str) :
  validate_email [] = false ->
  forallb isspace w = true ->
  wtforms.data field = VStr emails ->
  emails = a ++ ch "," :: w ++ ch "," :: b
  \/ emails = w ++ ch "," :: b
  \/ emails = a ++ ch "," :: w ->
  returns (validate_emails field) = false.
Proof.
  intros Hempty Hw Hdata Hshape.
  rewrite (validate_emails_str _ _ Hdata).
  set (addresses := List.map strip (split (ch ",") emails)).
  assert (In [] addresses) as Hin.
  { unfold addresses. rewrite <- (strip_whitespace w Hw).
    apply in_map. destruct Hshape as [->|[->| ->]];
      rewrite ?split_app, (split_whitespace w Hw);
      repeat (apply in_or_app; simpl; auto). }
  destruct (validate_each_outcome addresses)
    as [[Hall _]|(email & _ & _ & ->)]; [|reflexivity].
  rewrite forallb_forall in Hall. rewrite (Hall _ Hin) in Hempty.
  discriminate.
Qed.

End invitations.

Lemma validate_emails_outcomes_witness :
  InviteForm.validate_emails Sample.validate_email
    (wtforms.mkField (VStr (u "a@x.com , b@y.com")) VNone)
  = Return tt.
Proof.
  apply (proj1 (validate_emails_outcomes Sample.validate_email
                  (wtforms.mkField (VStr (u "a@x.com , b@y.com")) VNone)
                  (u "a@x.com , b@y.com") eq_refl)).
  reflexivity.
Defined.

Lemma empty_place_rejected_witness :
  returns (InviteForm.validate_emails Sample.validate_email
             (wtforms.mkField (VStr (u "a@x.com, ")) VNone))
  = false.
Proof.
  apply (empty_place_rejected Sample.validate_email
           (wtforms.mkField (VStr (u "a@x.com, ")) VNone)
           (u "a@x.com, ") (u "a@x.com") (u " ") []).
  - reflexivity.
  - reflexivity.
  - reflexivity.
  - right. right. reflexivity.
Defined.

(* ===================================================================== *)
(** * [ResetPasswordForm] *)
(* ===================================================================== *)

(** X18. The verdict of the password reset form. The password is marked
    as missing when blank, and as a mismatch when it is not blank and
    differs from the confirmation; the confirmation is marked as missing
    when blank and never otherwise; the form is valid exactly when the
    password is not blank and the confirmation is the same text. *)
Theorem reset_password_verdict (password confirmation : str) :
  let blank (s : str) := bool_decide (strip s = []) in
  let password_errors :=
    if blank password then [FieldRequired]
    else if bool_decide (password = confirmation) then []
    else [ResetPasswordForm.PasswordMismatch] in
  let confirmation_errors :=
    if blank confirmation then [FieldRequired] else [] in
  ResetPasswordForm.validate password confirmation
  = Return (negb (blank password) && bool_decide (password = confirmation),
            password_errors, confirmation_errors).
Proof.
  intros blank password_errors confirmation_errors.
  unfold ResetPasswordForm.validate, ResetPasswordForm.password_validators,
    wtforms.Field_validate.
  change (wtforms.StringField_process_formdata (wtforms.mkField VNone VNone)
            [password]) with (wtforms.mkField (VStr password) VNone).
  change (wtforms.StringField_process_formdata (wtforms.mkField VNone VNone)
            [confirmation]) with (wtforms.mkField (VStr confirmation) VNone).
  rewrite !app_nil_r. unfold wtforms.run_validation_chain.
  rewrite !DataRequired_text. unfold validators.EqualTo.
  change (py_eq (wtforms.data (wtforms.mkField (VStr password) VNone))
            (wtforms.data (wtforms.mkField (VStr confirmation) VNone)))
    with (bool_decide (password = confirmation)).
  unfold password_errors, confirmation_errors, blank.
  destruct (bool_decide (password = confirmation)) eqn:Heq.
  - apply bool_decide_eq_true_1 in Heq as <-.
    destruct (bool_decide (strip password = [])); reflexivity.
  - destruct (bool_decide (strip password = [])),
      (bool_decide (strip confirmation = [])); reflexivity.
Qed.

Example reset_password_examples :
  ResetPasswordForm.validate (u "s3cret") (u "s3cret")
  = Return (true, [], [])
  /\ ResetPasswordForm.validate (u "s3cret") (u "secret")
     = Return (false, [ResetPasswordForm.PasswordMismatch], [])
  /\ ResetPasswordForm.validate (u " ") (u " ")
     = Return (false, [FieldRequired], [FieldRequired]).
Proof. vm_compute. auto. Qed.

Lemma validate_id_returns_iff_witness :
  fst (ProjectForm.validate_id Sample.slugify ∅ Sample.form) = Return tt
  /\ snd (ProjectForm.validate_id Sample.slugify ∅ Sample.form)
     = Sample.form.
Proof.
  pose proof (validate_id_returns_iff Sample.slugify ∅ Sample.form)
    as [Hiff Hform].
  split.
  - apply (proj2 Hiff). split.
    + intros H. vm_compute in H. discriminate.
    + reflexivity.
  - rewrite Hform. reflexivity.
Defined.
